(** * Verification of the token-balance service (main.py)

    A shallow embedding of the request handlers of [main.py] and of the
    helpers they call, followed by the properties of the ranking, batching,
    token-information and last-transfer operations.

    Remote collaborators (the JSON-RPC node, the block explorer, the
    [to_checksum_address] utility of web3) are taken as the fields of an
    environment record [Env]; every theorem quantifies over it.  Python
    exceptions derived from [Exception] are modelled by the [Raise] outcome
    carrying [str(e)]; interpreter-level signals that [except Exception] does
    not catch (task cancellation, keyboard interrupt) are outside the model.

    The handlers come in two forms.  The first takes a standard output that
    accepts every printed line and the ASCII form of [int(s, 16)]; the
    second, in [WithRuntime], takes both from a [Runtime] record, so that a
    [print] may raise and non-ASCII numerals are parsed as the interpreter
    parses them.  The two agree on a runtime of the first kind. *)

From Stdlib Require Import ZArith QArith List String Ascii Bool Lia.
From Stdlib Require Import Sorting.Sorted Sorting.Permutation.
From Stdlib Require Import Floats.SpecFloat.
From Stdlib Require DecimalString.
Import ListNotations.

Set Warnings "-register-all".

Local Open Scope string_scope.
Local Open Scope list_scope.
Local Open Scope Z_scope.

(** ** Outcomes, the log of observable effects and the handler monad *)

(** The outcome of evaluating a Python expression: a value or a raised
    exception, represented by its message. *)
Inductive exc (A : Type) : Type :=
| Ret (a : A)
| Raise (msg : string).
Arguments Ret {A} a.
Arguments Raise {A} msg.

(** Remote requests a handler issues, and lines it prints. *)
Inductive event : Type :=
| CallSymbol (contract : string)
| CallName (contract : string)
| CallTotalSupply (contract : string)
| CallDecimals (contract : string)
| CallGetBalance (account : string)
| EthBlockNumber
| EthGetBlock (number : Z)
| HttpGet (url : string)
| Stdout (line : string).

(** A computation yields the events it performed, in order, and its outcome. *)
Definition M (A : Type) : Type := (list event * exc A)%type.

Definition ret {A} (a : A) : M A := ([], Ret a).

Definition raise {A} (msg : string) : M A := ([], Raise msg).

Definition bind {A B} (m : M A) (k : A -> M B) : M B :=
  match m with
  | (l1, Ret a) => let (l2, r) := k a in (l1 ++ l2, r)
  | (l1, Raise e) => (l1, Raise e)
  end.

(** [try: m except Exception as e: h e] *)
Definition try_except {A} (m : M A) (h : string -> M A) : M A :=
  match m with
  | (l1, Ret a) => (l1, Ret a)
  | (l1, Raise e) => let (l2, r) := h e in (l1 ++ l2, r)
  end.

(** A pure expression that may raise, used inside a handler. *)
Definition lift {A} (r : exc A) : M A := ([], r).

Definition emit (e : event) : M unit := ([e], Ret tt).

(** [print(line)] on a standard output that accepts the line; the form in
    which the write may raise is [WithRuntime.print]. *)
Definition print (line : string) : M unit := emit (Stdout line).

Definition trace {A} (m : M A) : list event := fst m.
Definition outcome {A} (m : M A) : exc A := snd m.

(** The remote requests among the events of a log. *)
Definition remote_calls (log : list event) : list event :=
  filter (fun e => match e with Stdout _ => false | _ => true end) log.

Declare Scope py_scope.
Delimit Scope py_scope with py.
Notation "x <- m ;; k" := (bind m (fun x => k))
  (at level 61, m at next level, right associativity) : py_scope.
Notation "m ;;; k" := (bind m (fun _ => k))
  (at level 61, right associativity) : py_scope.
Local Open Scope py_scope.

Definition exc_bind {A B} (r : exc A) (k : A -> exc B) : exc B :=
  match r with
  | Ret a => k a
  | Raise e => Raise e
  end.

(** [asyncio.gather] over the tasks: the results in the order of the
    awaitables; the first exception raised is propagated.  The log lists the tasks' events in
    task order, which is one of the schedules the event loop may choose; the
    outcome does not depend on the schedule. *)
Fixpoint gather {A} (tasks : list (M A)) : M (list A) :=
  match tasks with
  | [] => ret []
  | t :: ts => x <- t ;; xs <- gather ts ;; ret (x :: xs)
  end.

(** ** Python numbers *)

(** An [int] or a [float]; floats are IEEE binary64 values. *)
Inductive pynum : Type :=
| PyInt (z : Z)
| PyFloat (f : spec_float).

Definition prec64 : Z := 53.
Definition emax64 : Z := 1024.

(** The integer [z] as an exact (not yet rounded) binary value. *)
Definition exact_of_Z (z : Z) : spec_float :=
  match z with
  | Z0 => S754_zero false
  | Zpos p => S754_finite false p 0
  | Zneg p => S754_finite true p 0
  end.

(** [a / b] on two ints: the correctly rounded quotient (round half to even);
    [ZeroDivisionError] when [b] is zero, [OverflowError] when the quotient
    exceeds the range of a float. *)
Definition truediv (a b : Z) : exc pynum :=
  if b =? 0 then Raise "division by zero"
  else
    match SFdiv prec64 emax64 (exact_of_Z a) (exact_of_Z b) with
    | S754_infinity _ | S754_nan =>
        Raise "integer division result too large for a float"
    | f => Ret (PyFloat f)
    end.

(** Values on the extended real line, for comparisons. *)
Inductive xreal : Type :=
| XNaN
| XNegInf
| XFin (q : Q)
| XPosInf.

Definition float_value (f : spec_float) : xreal :=
  match f with
  | S754_zero _ => XFin 0
  | S754_infinity true => XNegInf
  | S754_infinity false => XPosInf
  | S754_nan => XNaN
  | S754_finite s m e =>
      XFin (inject_Z (if s then Z.neg m else Z.pos m) * Qpower 2 e)
  end.

Definition num_value (x : pynum) : xreal :=
  match x with
  | PyInt z => XFin (inject_Z z)
  | PyFloat f => float_value f
  end.

Definition Qltb (a b : Q) : bool :=
  match Qcompare a b with Lt => true | _ => false end.

Definition xreal_ltb (a b : xreal) : bool :=
  match a, b with
  | XNaN, _ | _, XNaN => false
  | XNegInf, XNegInf => false
  | XNegInf, _ => true
  | _, XNegInf => false
  | XPosInf, _ => false
  | _, XPosInf => true
  | XFin p, XFin q => Qltb p q
  end.

(** [x < y] on numbers: the comparison of the exact values, false whenever a
    NaN is involved. *)
Definition num_ltb (x y : pynum) : bool :=
  xreal_ltb (num_value x) (num_value y).

(** [x == y] on numbers. *)
Definition num_eqb (x y : pynum) : bool :=
  match num_value x, num_value y with
  | XNaN, _ | _, XNaN => false
  | XNegInf, XNegInf => true
  | XPosInf, XPosInf => true
  | XFin p, XFin q => Qeq_bool p q
  | _, _ => false
  end.

Definition Qleb (a b : Q) : bool := Qle_bool a b.

Definition xreal_leb (a b : xreal) : bool :=
  match a, b with
  | XNaN, _ | _, XNaN => false
  | XNegInf, _ => true
  | _, XPosInf => true
  | XFin p, XFin q => Qleb p q
  | _, _ => false
  end.

(** [x <= y] on numbers. *)
Definition num_leb (x y : pynum) : bool :=
  xreal_leb (num_value x) (num_value y).

(** Numbers that are neither NaN nor infinite. *)
Definition finite_num (x : pynum) : Prop :=
  exists q, num_value x = XFin q.

Definition float_one : spec_float := S754_finite false 4503599627370496 (-52).

(** ** Python values and the built-ins the handlers use *)

(** Values of a decoded JSON document. A dict is kept as its list of items;
    [dict_get] returns the binding of a key. *)
Inductive pyval : Type :=
| PNone
| PBool (b : bool)
| PNum (n : pynum)
| PStr (s : string)
| PList (l : list pyval)
| PDict (d : list (string * pyval)).

(** An f-string: the concatenation of its parts. *)
Definition fstr (parts : list string) : string := String.concat "" parts.

(** [str(z)] for an int. *)
Definition str_of_int (z : Z) : string :=
  DecimalString.NilZero.string_of_int (Z.to_int z).

Fixpoint dict_get (d : list (string * pyval)) (k : string) : option pyval :=
  match d with
  | [] => None
  | (k', v) :: d' => if String.eqb k' k then Some v else dict_get d' k
  end.

(** [v[k]] for a string key [k]. *)
Definition py_getitem (v : pyval) (k : string) : exc pyval :=
  match v with
  | PDict d =>
      match dict_get d k with
      | Some x => Ret x
      | None => Raise (fstr ["'"; k; "'"])
      end
  | PList _ => Raise "list indices must be integers or slices, not str"
  | PStr _ => Raise "string indices must be integers, not 'str'"
  | PNone => Raise "'NoneType' object is not subscriptable"
  | PBool _ => Raise "'bool' object is not subscriptable"
  | PNum (PyInt _) => Raise "'int' object is not subscriptable"
  | PNum (PyFloat _) => Raise "'float' object is not subscriptable"
  end.

(** [bool(v)] *)
Definition truthy (v : pyval) : bool :=
  match v with
  | PNone => false
  | PBool b => b
  | PNum n => negb (num_eqb n (PyInt 0))
  | PStr s => negb (String.eqb s "")
  | PList l => match l with [] => false | _ => true end
  | PDict d => match d with [] => false | _ => true end
  end.

(** [v != s] for a string literal [s]. *)
Definition py_ne_str (v : pyval) (s : string) : bool :=
  match v with
  | PStr t => negb (String.eqb t s)
  | _ => true
  end.

(** The items an iteration over [v] yields: the elements of a list, the
    one-character strings of a string, the keys of a dict. *)
Definition py_iter (v : pyval) : exc (list pyval) :=
  match v with
  | PList l => Ret l
  | PStr s => Ret (map (fun c => PStr (String c EmptyString)) (list_ascii_of_string s))
  | PDict d => Ret (map (fun kv => PStr (fst kv)) d)
  | PNone => Raise "'NoneType' object is not iterable"
  | PBool _ => Raise "'bool' object is not iterable"
  | PNum (PyInt _) => Raise "'int' object is not iterable"
  | PNum (PyFloat _) => Raise "'float' object is not iterable"
  end.

(** *** [int(s, 16)] *)

Definition is_space (c : ascii) : bool :=
  let n := Z.of_nat (nat_of_ascii c) in
  ((9 <=? n) && (n <=? 13)) || (n =? 32).

(** The value of a character as a digit, in any base up to 36. *)
Definition digit_value (c : ascii) : option Z :=
  let n := Z.of_nat (nat_of_ascii c) in
  if (48 <=? n) && (n <=? 57) then Some (n - 48)
  else if (97 <=? n) && (n <=? 122) then Some (n - 87)
  else if (65 <=? n) && (n <=? 90) then Some (n - 55)
  else None.

Definition is_digit (base : Z) (c : ascii) : bool :=
  match digit_value c with
  | Some d => d <? base
  | None => false
  end.

Fixpoint skip_space (s : string) : string :=
  match s with
  | String c r => if is_space c then skip_space r else s
  | EmptyString => s
  end.

(** Reads digits and single underscores between them; [prev_us] tells that
    the previous character was an underscore.  Yields the value read and the
    rest of the string, or nothing when an underscore is doubled or last. *)
Fixpoint scan_digits (base : Z) (s : string) (prev_us : bool) (acc : Z)
  : option (Z * string) :=
  match s with
  | EmptyString => if prev_us then None else Some (acc, s)
  | String c r =>
      if Ascii.eqb c "_" then
        if prev_us then None else scan_digits base r true acc
      else
        match digit_value c with
        | Some d =>
            if d <? base then scan_digits base r false (acc * base + d)
            else if prev_us then None else Some (acc, s)
        | None => if prev_us then None else Some (acc, s)
        end
  end.

(** The literal after the sign: an optional [0x] or [0X] prefix, which one
    underscore may follow, then at least one digit. *)
Definition scan_hex_literal (s : string) : option (Z * string) :=
  let body :=
    match s with
    | String "0" (String x r) =>
        if Ascii.eqb x "x" || Ascii.eqb x "X" then
          match r with
          | String "_" r' => r'
          | _ => r
          end
        else s
    | _ => s
    end in
  match body with
  | String c _ => if is_digit 16 c then scan_digits 16 body false 0 else None
  | EmptyString => None
  end.

(** [int(s, 16)] on an ASCII string: surrounding white space, a sign, the
    literal.  Bytes outside ASCII are rejected (the interpreter would accept
    Unicode spaces and decimal digits in their place). *)
Definition int_of_hex_string (s : string) : exc Z :=
  let s1 := skip_space s in
  let (neg, s2) :=
    match s1 with
    | String "+" r => (false, r)
    | String "-" r => (true, r)
    | _ => (false, s1)
    end in
  match scan_hex_literal s2 with
  | Some (v, rest) =>
      match skip_space rest with
      | EmptyString => Ret (if neg then - v else v)
      | _ => Raise (fstr ["invalid literal for int() with base 16: '"; s; "'"])
      end
  | None => Raise (fstr ["invalid literal for int() with base 16: '"; s; "'"])
  end.

(** [int(v, 16)] *)
Definition py_int16 (v : pyval) : exc Z :=
  match v with
  | PStr s => int_of_hex_string s
  | _ => Raise "int() can't convert non-string with explicit base"
  end.

(** *** [max(items, key=...)] *)

(** [(a, b) > (c, d)] on tuples of ints. *)
Definition pair_gtb (p q : Z * Z) : bool :=
  if fst p =? fst q then snd q <? snd p else fst q <? fst p.

(** The lexicographic order on pairs of ints. *)
Definition lex_lt (p q : Z * Z) : Prop :=
  fst p < fst q \/ (fst p = fst q /\ snd p < snd q).

Definition lex_le (p q : Z * Z) : Prop :=
  fst p < fst q \/ (fst p = fst q /\ snd p <= snd q).

Section Max.
Context {A K : Type} (key : A -> exc K) (gtb : K -> K -> bool).

(** The loop of [max]: the current best item is replaced only by an item
    whose key is strictly greater. *)
Fixpoint max_loop (items : list A) (maxitem : A) (maxval : K) : exc A :=
  match items with
  | [] => Ret maxitem
  | item :: rest =>
      exc_bind (key item) (fun val =>
        if gtb val maxval then max_loop rest item val
        else max_loop rest maxitem maxval)
  end.

Definition py_max (items : list A) : exc A :=
  match items with
  | [] => Raise "max() arg is an empty sequence"
  | item :: rest => exc_bind (key item) (fun val => max_loop rest item val)
  end.
End Max.

(** *** [sorted(l, key=..., reverse=...)] and slicing *)

Section Sorted.
Context {A K : Type} (key : A -> K) (ltb : K -> K -> bool).

(** Insertion in front of the first element that is not smaller: an item
    never passes an item it does not exceed, so equal keys keep their
    order. *)
Fixpoint insert_stable (x : A) (l : list A) : list A :=
  match l with
  | [] => [x]
  | y :: l' => if ltb (key y) (key x) then y :: insert_stable x l' else x :: l
  end.

(** The stable ascending sort; it compares keys with [<] only. *)
Definition sort_stable (l : list A) : list A :=
  fold_right insert_stable [] l.

(** With [reverse=True] the list is reversed, sorted and reversed again,
    which keeps the sort stable. *)
Definition py_sorted (reverse : bool) (l : list A) : list A :=
  if reverse then rev (sort_stable (rev l)) else sort_stable l.

(** [a] is not above [b]. *)
Definition key_le (a b : A) : Prop := ltb (key b) (key a) = false.

(** The items whose key is equal to [k], in the sense that neither is
    below the other. *)
Definition same_key (k : K) (a : A) : bool :=
  negb (ltb (key a) k) && negb (ltb k (key a)).
End Sorted.

(** [l[:n]]: the first [n] items, or all but the last [-n] when [n] is
    negative. *)
Definition slice_to {A} (n : Z) (l : list A) : list A :=
  if 0 <=? n then firstn (Z.to_nat n) l
  else firstn (List.length l - Z.to_nat (- n)) l.

(** [s[2:]] *)
Definition drop2 (s : string) : string :=
  match s with
  | String _ (String _ r) => r
  | _ => EmptyString
  end.

(** [s.lower()] on ASCII letters. *)
Definition lower_char (c : ascii) : ascii :=
  let n := nat_of_ascii c in
  if (65 <=? n)%nat && (n <=? 90)%nat then ascii_of_nat (n + 32) else c.

Fixpoint lower (s : string) : string :=
  match s with
  | EmptyString => EmptyString
  | String c r => String (lower_char c) (lower r)
  end.

(** *** [datetime.datetime] *)

Record datetime : Type := {
  year : Z; month : Z; day : Z;
  hour : Z; minute : Z; second : Z; microsecond : Z
}.

Definition is_leap (y : Z) : bool :=
  (y mod 4 =? 0) && (negb (y mod 100 =? 0) || (y mod 400 =? 0)).

Definition days_in_month (y m : Z) : Z :=
  if m =? 2 then (if is_leap y then 29 else 28)
  else if (m =? 4) || (m =? 6) || (m =? 9) || (m =? 11) then 30
  else 31.

Definition check_datetime (y mo d h mi s us : Z) : exc datetime :=
  if negb ((1 <=? y) && (y <=? 9999)) then
    Raise (fstr ["year "; str_of_int y; " is out of range"])
  else if negb ((1 <=? mo) && (mo <=? 12)) then Raise "month must be in 1..12"
  else if negb ((1 <=? d) && (d <=? days_in_month y mo)) then
    Raise "day is out of range for month"
  else if negb ((0 <=? h) && (h <=? 23)) then Raise "hour must be in 0..23"
  else if negb ((0 <=? mi) && (mi <=? 59)) then Raise "minute must be in 0..59"
  else if negb ((0 <=? s) && (s <=? 59)) then Raise "second must be in 0..59"
  else if negb ((0 <=? us) && (us <=? 999999)) then
    Raise "microsecond must be in 0..999999"
  else Ret {| year := y; month := mo; day := d;
              hour := h; minute := mi; second := s; microsecond := us |}.

(** The constructor [datetime.datetime(...)] called with positional int
    arguments: year, month and day are required; hour, minute, second and
    microsecond default to zero; an eighth argument must be a tzinfo. *)
Definition datetime_datetime (args : list Z) : exc datetime :=
  match args with
  | [] => Raise "function missing required argument 'year' (pos 1)"
  | [_] => Raise "function missing required argument 'month' (pos 2)"
  | [_; _] => Raise "function missing required argument 'day' (pos 3)"
  | [y; mo; d] => check_datetime y mo d 0 0 0 0
  | [y; mo; d; h] => check_datetime y mo d h 0 0 0
  | [y; mo; d; h; mi] => check_datetime y mo d h mi 0 0
  | [y; mo; d; h; mi; s] => check_datetime y mo d h mi s 0
  | [y; mo; d; h; mi; s; us] => check_datetime y mo d h mi s us
  | [_; _; _; _; _; _; _; _] =>
      Raise "tzinfo argument must be None or of a tzinfo subclass, not type 'int'"
  | _ => Raise "function takes at most 9 arguments"
  end.

(** The decimal digits of a non-negative [z], padded with zeros on the left
    to [width] characters. *)
Definition zero_pad (width : nat) (z : Z) : string :=
  let s := str_of_int z in
  String.append (String.concat "" (repeat "0" (width - String.length s))) s.

(** [d.strftime("%Y-%m-%d %H:%M:%S")], the year written with four digits. *)
Definition strftime_ymd_hms (d : datetime) : string :=
  fstr [zero_pad 4 (year d); "-"; zero_pad 2 (month d); "-"; zero_pad 2 (day d);
        " "; zero_pad 2 (hour d); ":"; zero_pad 2 (minute d); ":";
        zero_pad 2 (second d)].

(** ** The environment of the service *)

(** The part of a block the service reads. *)
Record BlockData : Type := { timestamp : Z }.

(** The remote collaborators and the configuration.  [erc20_abi] and
    [config.API_POLYGONSCAN] are not part of the sources: the reads return
    the Python types the ERC-20 interface decodes to (strings, non-negative
    ints for [uint8] and ints for [uint256]), and the API key is a field. *)
Record Env : Type := {
  (** [web3.to_checksum_address] *)
  to_checksum_address : string -> exc string;
  (** [contract.functions.symbol().call()] on the contract at an address *)
  contract_symbol : string -> exc string;
  contract_name : string -> exc string;
  contract_totalSupply : string -> exc Z;
  contract_decimals : string -> exc BinNums.N;
  (** [token_contract.functions.getBalance(account).call()] *)
  token_getBalance : string -> exc Z;
  (** [web3.eth.block_number] *)
  eth_block_number : exc Z;
  (** [web3.eth.get_block(number)] *)
  eth_get_block : Z -> exc BlockData;
  (** [session.get(url)] followed by [response.json()] *)
  http_get_json : string -> exc pyval;
  API_POLYGONSCAN : string
}.

(** [app.state], filled by [lifespan] before the first request. *)
Record AppState : Type := { token_symbol : string }.

(** The request body of the POST endpoints. *)
Record AddressList : Type := { N : Z; addresses : list string }.

Section Service.
Variable env : Env.

Definition call_symbol (c : string) : M string :=
  emit (CallSymbol c) ;;; lift (contract_symbol env c).
Definition call_name (c : string) : M string :=
  emit (CallName c) ;;; lift (contract_name env c).
Definition call_totalSupply (c : string) : M Z :=
  emit (CallTotalSupply c) ;;; lift (contract_totalSupply env c).
Definition call_decimals (c : string) : M BinNums.N :=
  emit (CallDecimals c) ;;; lift (contract_decimals env c).
Definition call_getBalance (account : string) : M Z :=
  emit (CallGetBalance account) ;;; lift (token_getBalance env account).
Definition call_block_number : M Z :=
  emit EthBlockNumber ;;; lift (eth_block_number env).
Definition call_get_block (number : Z) : M BlockData :=
  emit (EthGetBlock number) ;;; lift (eth_get_block env number).
Definition call_http_get (url : string) : M pyval :=
  emit (HttpGet url) ;;; lift (http_get_json env url).

(** ** Start-up *)

(** The module-level constant [token_address] (line 16), evaluated when the
    module is imported. *)
Definition token_address : exc string :=
  to_checksum_address env "0x1a9b54A3075119f1546C52cA0940551A6ce5d2D0".

(** The part of [lifespan] that runs before the first request: it reads the
    symbol of [token_contract], the contract at [token_address], stores it in
    [app.state] and prints it.  Nothing is caught. *)
Definition lifespan : M AppState :=
  address <- lift token_address ;;
  symbol <- call_symbol address ;;
  print (fstr ["Token Symbol: "; symbol]) ;;;
  ret {| token_symbol := symbol |}.

(** ** The handlers *)

Definition check_address_balance (address : string) : M pynum :=
  try_except
    (checksum <- lift (to_checksum_address env address) ;;
     balance <- call_getBalance checksum ;;
     lift (truediv balance (10 ^ 18)))
    (fun e =>
       print (fstr ["Ошибка при получении баланса "; address; ": "; e]) ;;;
       ret (PyInt 0)).

(** The body [get_token_info] returns: the token's data or an error. *)
Inductive token_info_body : Type :=
| TokenInfo (symbol name : string) (totalSupply : pynum)
| TokenError (error : string).

Definition get_token_info (token_address : string) : M token_info_body :=
  try_except
    (checksum <- lift (to_checksum_address env token_address) ;;
     symbol <- call_symbol checksum ;;
     name <- call_name checksum ;;
     total_supply <- call_totalSupply checksum ;;
     decimals <- call_decimals checksum ;;
     total_supply_readable <-
       lift (truediv total_supply (10 ^ Z.of_N decimals)) ;;
     ret (TokenInfo symbol name total_supply_readable))
    (fun e => ret (TokenError e)).

Record balance_batch_body : Type := {
  balances : list pynum;
  symbol : string
}.

Definition get_balance_batch (data : AddressList) (app_state : AppState)
  : M balance_batch_body :=
  balances <- gather (map check_address_balance (addresses data)) ;;
  ret {| balances := balances; symbol := token_symbol app_state |}.

Record top_body : Type := { top_addresses : list (string * pynum) }.

Definition get_top (data : AddressList) : M top_body :=
  let n := N data in
  balances <- gather (map check_address_balance (addresses data)) ;;
  let addresses_with_balances := combine (addresses data) balances in
  let sorted_addresses :=
    py_sorted snd num_ltb true addresses_with_balances in
  ret {| top_addresses := slice_to n sorted_addresses |}.

(** The sort key of an event: [(int(e["blockNumber"], 16),
    int(e["transactionIndex"], 16))]. *)
Definition event_key (e : pyval) : exc (Z * Z) :=
  exc_bind (py_getitem e "blockNumber") (fun b =>
  exc_bind (py_int16 b) (fun bn =>
  exc_bind (py_getitem e "transactionIndex") (fun t =>
  exc_bind (py_int16 t) (fun ti => Ret (bn, ti))))).

(** The URL of the request sent to the explorer, as lines 87 to 109 build
    it: a pure expression of the normalized address and of the current
    block. *)
Definition getLogs_url (checksum_address : string) (current_block : Z)
  : string :=
  let contract_address := "0x1a9b54A3075119f1546C52cA0940551A6ce5d2D0" in
  let api_key := API_POLYGONSCAN env in
  let topic0 :=
    "0xddf252ad1be2c89b69c2b068fc378daa952ba7f163c4a11628f55a4df523b3ef" in
  let padded_address :=
    fstr ["0x000000000000000000000000"; lower (drop2 checksum_address)] in
  let blocks_per_hour := 3600 / 2 in
  let from_block := current_block - 6 * blocks_per_hour in
  let to_block := "latest" in
  fstr ["https://api.polygonscan.com/api?module=logs&action=getLogs";
        "&address="; contract_address;
        "&fromBlock="; str_of_int from_block; "&toBlock="; to_block;
        "&topic0="; topic0;
        "&topic0_1_opr=or";
        "&topic1="; padded_address;
        "&topic0_2_opr=or";
        "&topic2="; padded_address;
        "&apikey="; api_key].

Definition get_last_transaction_date (address : string) : M string :=
  try_except
    (checksum_address <- lift (to_checksum_address env address) ;;
     current_block <- call_block_number ;;
     let url := getLogs_url checksum_address current_block in
     data <- call_http_get url ;;
     status <- lift (py_getitem data "status") ;;
     nothing <-
       (if py_ne_str status "1" then ret true
        else result <- lift (py_getitem data "result") ;;
             ret (negb (truthy result))) ;;
     if nothing : bool then
       print (fstr ["No transactions found for "; checksum_address;
                    " via Polygonscan"]) ;;;
       ret "No transactions found"
     else
       events <- lift (py_getitem data "result") ;;
       items <- lift (py_iter events) ;;
       latest_event <- lift (py_max event_key pair_gtb items) ;;
       number_field <- lift (py_getitem latest_event "blockNumber") ;;
       block_number <- lift (py_int16 number_field) ;;
       block <- call_get_block block_number ;;
       let timestamp := timestamp block in
       moment <- lift (datetime_datetime [timestamp]) ;;
       let date := strftime_ymd_hms moment in
       print (fstr ["Last transaction for "; checksum_address; ": "; date]) ;;;
       ret date)
    (fun e =>
       print (fstr ["Ошибка при получении последней транзакции для ";
                    address; ": "; e]) ;;;
       ret "Error retrieving transaction date").

(** The loop of [get_top_with_transactions] over the ranked entries;
    [acc] is the list built so far. *)
Fixpoint enrich_loop (entries : list (string * pynum))
    (acc : list (string * pynum * string))
  : M (list (string * pynum * string)) :=
  match entries with
  | [] => ret acc
  | (address, balance) :: rest =>
      last_transaction_date <- get_last_transaction_date address ;;
      enrich_loop rest (acc ++ [(address, balance, last_transaction_date)])
  end.

Record top_with_transactions_body : Type := {
  top_addresses_with_transactions : list (string * pynum * string)
}.

Definition get_top_with_transactions (data : AddressList)
  : M top_with_transactions_body :=
  balances <- gather (map check_address_balance (addresses data)) ;;
  let addresses_with_balances := combine (addresses data) balances in
  let sorted_addresses :=
    py_sorted snd num_ltb true addresses_with_balances in
  top_with_transactions <-
    enrich_loop (slice_to (N data) sorted_addresses) [] ;;
  ret {| top_addresses_with_transactions := top_with_transactions |}.

End Service.

(** ** Sample inputs *)

Definition float_five : spec_float := S754_finite false 5629499534213120 (-50).
Definition float_ten : spec_float := S754_finite false 5629499534213120 (-49).

Definition sample_event (number index : string) : pyval :=
  PDict [("blockNumber", PStr number); ("transactionIndex", PStr index)].

(** The explorer's answer: four transfers, the latest in block [0x2f] at
    index [0x3]. *)
Definition sample_logs : pyval :=
  PDict [("status", PStr "1"); ("message", PStr "OK");
         ("result", PList [sample_event "0x10" "0x1"; sample_event "0x2f" "0x0";
                           sample_event "0x2f" "0x3"; sample_event "0x2e" "0x9"])].

Definition empty_logs : pyval :=
  PDict [("status", PStr "0"); ("message", PStr "No records found");
         ("result", PList [])].

(** A node on which [A], [B] and [C] hold 5, 0 and 10 tokens, the address
    [bad] has no checksum form and any other balance read reverts. *)
Definition sample_env : Env := {|
  to_checksum_address := fun a =>
    if String.eqb a "bad" then Raise "invalid address" else Ret a;
  contract_symbol := fun _ => Ret "TKN";
  contract_name := fun _ => Ret "Token";
  contract_totalSupply := fun _ => Ret (10 ^ 18);
  contract_decimals := fun _ => Ret 18%N;
  token_getBalance := fun a =>
    if String.eqb a "A" then Ret (5 * 10 ^ 18)
    else if String.eqb a "B" then Ret 0
    else if String.eqb a "C" then Ret (10 ^ 19)
    else Raise "execution reverted";
  eth_block_number := Ret 50000000;
  eth_get_block := fun _ => Ret {| timestamp := 1700000000 |};
  http_get_json := fun _ => Ret sample_logs;
  API_POLYGONSCAN := "KEY"
|}.

(** The same node with an explorer that finds no transfer. *)
Definition quiet_env : Env := {|
  to_checksum_address := to_checksum_address sample_env;
  contract_symbol := contract_symbol sample_env;
  contract_name := contract_name sample_env;
  contract_totalSupply := contract_totalSupply sample_env;
  contract_decimals := contract_decimals sample_env;
  token_getBalance := token_getBalance sample_env;
  eth_block_number := eth_block_number sample_env;
  eth_get_block := eth_get_block sample_env;
  http_get_json := fun _ => Ret empty_logs;
  API_POLYGONSCAN := "KEY"
|}.

(** A node whose token reads all fail. *)
Definition failing_env : Env := {|
  to_checksum_address := to_checksum_address sample_env;
  contract_symbol := fun _ => Ret "TKN";
  contract_name := fun _ => Ret "Token";
  contract_totalSupply := fun _ => Ret (10 ^ 18);
  contract_decimals := fun _ => Raise "execution reverted";
  token_getBalance := fun _ => Raise "execution reverted";
  eth_block_number := Raise "connection refused";
  eth_get_block := fun _ => Raise "connection refused";
  http_get_json := fun _ => Raise "connection refused";
  API_POLYGONSCAN := "KEY"
|}.

(** A node on which no address has a checksum form. *)
Definition no_checksum_env : Env := {|
  to_checksum_address := fun _ => Raise "invalid address";
  contract_symbol := contract_symbol sample_env;
  contract_name := contract_name sample_env;
  contract_totalSupply := contract_totalSupply sample_env;
  contract_decimals := contract_decimals sample_env;
  token_getBalance := token_getBalance sample_env;
  eth_block_number := eth_block_number sample_env;
  eth_get_block := eth_get_block sample_env;
  http_get_json := http_get_json sample_env;
  API_POLYGONSCAN := "KEY"
|}.

Definition top2_request : AddressList :=
  {| N := 2; addresses := ["A"; "B"; "C"] |}.

Definition top5_request : AddressList :=
  {| N := 5; addresses := ["A"; "B"; "C"] |}.

Definition negative_request : AddressList :=
  {| N := -1; addresses := ["A"; "B"; "C"] |}.

Definition zero_request : AddressList :=
  {| N := 0; addresses := ["A"; "B"; "C"] |}.

(** ** The handlers under the interpreter's text handling *)

(** Two behaviours of the interpreter the handlers above take in their
    simplest form: [print] writes a line to standard output, which raises
    when the stream cannot encode or accept the text, and [int(s, 16)]
    accepts Unicode decimal digits and white space in a string that is not
    ASCII.  Both are fields of a [Runtime]. *)
Record Runtime : Type := {
  (** writing one printed line to [sys.stdout] *)
  stdout_write : string -> exc unit;
  (** [int(s, 16)] on a string that holds a character outside ASCII *)
  int16_non_ascii : string -> exc Z
}.

Definition is_ascii (s : string) : bool :=
  forallb (fun c => (nat_of_ascii c <? 128)%nat) (list_ascii_of_string s).

(** The handlers that print or parse, over a [Runtime].  With a stream that
    accepts every line they are the handlers above (see
    [check_address_balance_plain] and [get_last_transaction_date_plain]). *)
Module WithRuntime.
Section Handlers.
Variable rt : Runtime.
Variable env : Env.

(** [print(line)]: the line is written, or the stream's exception is
    raised and nothing is written. *)
Definition print (line : string) : M unit :=
  match stdout_write rt line with
  | Ret _ => emit (Stdout line)
  | Raise msg => raise msg
  end.

(** [int(v, 16)] *)
Definition py_int16 (v : pyval) : exc Z :=
  match v with
  | PStr s => if is_ascii s then int_of_hex_string s else int16_non_ascii rt s
  | _ => Raise "int() can't convert non-string with explicit base"
  end.

Definition check_address_balance (address : string) : M pynum :=
  try_except
    (checksum <- lift (to_checksum_address env address) ;;
     balance <- call_getBalance env checksum ;;
     lift (truediv balance (10 ^ 18)))
    (fun e =>
       print (fstr ["Ошибка при получении баланса "; address; ": "; e]) ;;;
       ret (PyInt 0)).

Definition get_balance_batch (data : AddressList) (app_state : AppState)
  : M balance_batch_body :=
  balances <- gather (map check_address_balance (addresses data)) ;;
  ret {| balances := balances; symbol := token_symbol app_state |}.

Definition event_key (e : pyval) : exc (Z * Z) :=
  exc_bind (py_getitem e "blockNumber") (fun b =>
  exc_bind (py_int16 b) (fun bn =>
  exc_bind (py_getitem e "transactionIndex") (fun t =>
  exc_bind (py_int16 t) (fun ti => Ret (bn, ti))))).

Definition get_last_transaction_date (address : string) : M string :=
  try_except
    (checksum_address <- lift (to_checksum_address env address) ;;
     current_block <- call_block_number env ;;
     let url := getLogs_url env checksum_address current_block in
     data <- call_http_get env url ;;
     status <- lift (py_getitem data "status") ;;
     nothing <-
       (if py_ne_str status "1" then ret true
        else result <- lift (py_getitem data "result") ;;
             ret (negb (truthy result))) ;;
     if nothing : bool then
       print (fstr ["No transactions found for "; checksum_address;
                    " via Polygonscan"]) ;;;
       ret "No transactions found"
     else
       events <- lift (py_getitem data "result") ;;
       items <- lift (py_iter events) ;;
       latest_event <- lift (py_max event_key pair_gtb items) ;;
       number_field <- lift (py_getitem latest_event "blockNumber") ;;
       block_number <- lift (py_int16 number_field) ;;
       block <- call_get_block env block_number ;;
       let timestamp := timestamp block in
       moment <- lift (datetime_datetime [timestamp]) ;;
       let date := strftime_ymd_hms moment in
       print (fstr ["Last transaction for "; checksum_address; ": "; date]) ;;;
       ret date)
    (fun e =>
       print (fstr ["Ошибка при получении последней транзакции для ";
                    address; ": "; e]) ;;;
       ret "Error retrieving transaction date").

Fixpoint enrich_loop (entries : list (string * pynum))
    (acc : list (string * pynum * string))
  : M (list (string * pynum * string)) :=
  match entries with
  | [] => ret acc
  | (address, balance) :: rest =>
      last_transaction_date <- get_last_transaction_date address ;;
      enrich_loop rest (acc ++ [(address, balance, last_transaction_date)])
  end.

Definition get_top_with_transactions (data : AddressList)
  : M top_with_transactions_body :=
  balances <- gather (map check_address_balance (addresses data)) ;;
  let addresses_with_balances := combine (addresses data) balances in
  let sorted_addresses :=
    py_sorted snd num_ltb true addresses_with_balances in
  top_with_transactions <-
    enrich_loop (slice_to (N data) sorted_addresses) [] ;;
  ret {| top_addresses_with_transactions := top_with_transactions |}.

End Handlers.
End WithRuntime.

(** *** Sample runtimes *)

(** Strings hold the UTF-8 bytes of the Python text; a lone surrogate, which
    has no UTF-8 form, is kept as the three bytes ED A0..BF xx of its
    generalized encoding. *)
Fixpoint has_surrogate (s : string) : bool :=
  match s with
  | EmptyString => false
  | String a r =>
      match r with
      | String b _ =>
          ((nat_of_ascii a =? 237) && (160 <=? nat_of_ascii b)
           && (nat_of_ascii b <=? 191))%nat
          || has_surrogate r
      | EmptyString => false
      end
  end.

(** The string of the single code point U+D800. *)
Definition lone_surrogate : string :=
  String (ascii_of_nat 237) (String (ascii_of_nat 160)
    (String (ascii_of_nat 128) EmptyString)).

(** Full-width digits (U+FF10 to U+FF19, bytes EF BC 90..99) replaced by
    the ASCII digits. *)
Fixpoint fullwidth_to_ascii (s : string) : string :=
  match s with
  | EmptyString => EmptyString
  | String a t =>
      match t with
      | String b (String c r) =>
          if ((nat_of_ascii a =? 239) && (nat_of_ascii b =? 188)
              && (144 <=? nat_of_ascii c) && (nat_of_ascii c <=? 153))%nat
          then String (ascii_of_nat (nat_of_ascii c - 96)) (fullwidth_to_ascii r)
          else String a (fullwidth_to_ascii t)
      | _ => String a (fullwidth_to_ascii t)
      end
  end.

(** A UTF-8 standard output, which refuses surrogates, and a parse of
    non-ASCII numerals that knows the full-width digits. *)
Definition utf8_runtime : Runtime := {|
  stdout_write := fun line =>
    if has_surrogate line
    then Raise "'utf-8' codec can't encode character: surrogates not allowed"
    else Ret tt;
  int16_non_ascii := fun s =>
    let t := fullwidth_to_ascii s in
    if is_ascii t then int_of_hex_string t
    else Raise (fstr ["invalid literal for int() with base 16: '"; s; "'"])
|}.

(** A standard output with the ASCII encoding, which refuses every line
    that holds a character outside ASCII. *)
Definition ascii_runtime : Runtime := {|
  stdout_write := fun line =>
    if is_ascii line then Ret tt
    else Raise "'ascii' codec can't encode characters: ordinal not in range(128)";
  int16_non_ascii := int16_non_ascii utf8_runtime
|}.

(** A standard output that accepts every line, and the ASCII parse alone:
    the interpreter as the handlers of the first part take it. *)
Definition plain_runtime : Runtime := {|
  stdout_write := fun _ => Ret tt;
  int16_non_ascii := int_of_hex_string
|}.

(** The explorer's answer with one event whose fields are written in
    full-width digits, and a node whose explorer gives that answer. *)
Definition fullwidth_logs : pyval :=
  PDict [("status", PStr "1");
         ("result", PList [sample_event "１０" "０"])].

Definition fullwidth_env : Env := {|
  to_checksum_address := to_checksum_address sample_env;
  contract_symbol := contract_symbol sample_env;
  contract_name := contract_name sample_env;
  contract_totalSupply := contract_totalSupply sample_env;
  contract_decimals := contract_decimals sample_env;
  token_getBalance := token_getBalance sample_env;
  eth_block_number := eth_block_number sample_env;
  eth_get_block := eth_get_block sample_env;
  http_get_json := fun _ => Ret fullwidth_logs;
  API_POLYGONSCAN := "KEY"
|}.

(** The explorer's answer with an event whose block number is no number. *)
Definition malformed_logs : pyval :=
  PDict [("status", PStr "1");
         ("result", PList [sample_event "0x10" "0x1";
                           sample_event "sixteen" "0x0"])].

Definition malformed_env : Env := {|
  to_checksum_address := to_checksum_address sample_env;
  contract_symbol := contract_symbol sample_env;
  contract_name := contract_name sample_env;
  contract_totalSupply := contract_totalSupply sample_env;
  contract_decimals := contract_decimals sample_env;
  token_getBalance := token_getBalance sample_env;
  eth_block_number := eth_block_number sample_env;
  eth_get_block := eth_get_block sample_env;
  http_get_json := fun _ => Ret malformed_logs;
  API_POLYGONSCAN := "KEY"
|}.

(** * Properties *)

(** ** The handler monad *)

Lemma outcome_bind {A B} (m : M A) (k : A -> M B) :
  outcome (bind m k) =
  match outcome m with
  | Ret a => outcome (k a)
  | Raise e => Raise e
  end.
Proof.
  destruct m as [l [a | e]]; simpl; [ | reflexivity ].
  destruct (k a); reflexivity.
Qed.

Lemma trace_bind {A B} (m : M A) (k : A -> M B) :
  trace (bind m k) =
  match outcome m with
  | Ret a => trace m ++ trace (k a)
  | Raise _ => trace m
  end.
Proof.
  destruct m as [l [a | e]]; simpl; [ | reflexivity ].
  destruct (k a); reflexivity.
Qed.

Lemma outcome_try_except {A} (m : M A) (h : string -> M A) :
  outcome (try_except m h) =
  match outcome m with
  | Ret a => Ret a
  | Raise e => outcome (h e)
  end.
Proof.
  destruct m as [l [a | e]]; simpl; [ reflexivity | ].
  destruct (h e); reflexivity.
Qed.

Lemma trace_try_except {A} (m : M A) (h : string -> M A) :
  trace (try_except m h) =
  match outcome m with
  | Ret _ => trace m
  | Raise e => trace m ++ trace (h e)
  end.
Proof.
  destruct m as [l [a | e]]; simpl; [ reflexivity | ].
  destruct (h e); reflexivity.
Qed.

Lemma outcome_lift {A} (r : exc A) : outcome (lift r) = r.
Proof. reflexivity. Qed.

Lemma outcome_ret {A} (a : A) : outcome (ret a) = Ret a.
Proof. reflexivity. Qed.

Lemma outcome_emit (e : event) : outcome (emit e) = Ret tt.
Proof. reflexivity. Qed.

Lemma outcome_print (line : string) : outcome (print line) = Ret tt.
Proof. reflexivity. Qed.

(** A guarded computation whose handler returns never raises. *)
Lemma try_except_returns {A} (m : M A) (h : string -> M A) :
  (forall e, exists a, outcome (h e) = Ret a) ->
  exists a, outcome (try_except m h) = Ret a.
Proof.
  intros Hh. rewrite outcome_try_except.
  destruct (outcome m) as [a | e]; [ now exists a | apply Hh ].
Qed.

(** The results of [gather] are aligned with the tasks. *)
Lemma gather_map_returns {A B} (f : A -> M B) (l : list A) :
  (forall a, exists b, outcome (f a) = Ret b) ->
  exists bs,
    outcome (gather (map f l)) = Ret bs /\
    Forall2 (fun a b => outcome (f a) = Ret b) l bs.
Proof.
  intros Hf. induction l as [ | a l IH ]; simpl.
  - exists []. split; [ reflexivity | constructor ].
  - destruct (Hf a) as [b Hb]. destruct IH as (bs & Hbs & Hall).
    exists (b :: bs). split; [ | now constructor ].
    rewrite outcome_bind, Hb, outcome_bind, Hbs. reflexivity.
Qed.

(** ** The order on finite numbers *)

Lemma Qltb_true (a b : Q) : Qltb a b = true <-> (a < b)%Q.
Proof.
  unfold Qltb. rewrite Qlt_alt.
  destruct (a ?= b)%Q; split; congruence.
Qed.

Lemma Qltb_false (a b : Q) : Qltb a b = false <-> (b <= a)%Q.
Proof.
  split; intros H.
  - apply Qnot_lt_le. intros Hlt. apply Qltb_true in Hlt. congruence.
  - destruct (Qltb a b) eqn:E; [ | reflexivity ].
    apply Qltb_true in E. exfalso. eapply Qlt_not_le; eassumption.
Qed.

Lemma num_ltb_asym (x y : pynum) :
  finite_num x -> finite_num y -> num_ltb x y = true -> num_ltb y x = false.
Proof.
  intros [p Hp] [q Hq]. unfold num_ltb. rewrite Hp, Hq. simpl.
  rewrite Qltb_true, Qltb_false. apply Qlt_le_weak.
Qed.

Lemma num_ltb_ntrans (x y z : pynum) :
  finite_num x -> finite_num y -> finite_num z ->
  num_ltb x y = false -> num_ltb y z = false -> num_ltb x z = false.
Proof.
  intros [p Hp] [q Hq] [r Hr]. unfold num_ltb. rewrite Hp, Hq, Hr. simpl.
  rewrite !Qltb_false. intros H1 H2. eapply Qle_trans; eassumption.
Qed.

(** On finite numbers [==] holds exactly when neither number is below the
    other. *)
Lemma num_eqb_ltb (x y : pynum) :
  finite_num x -> finite_num y ->
  num_eqb x y = negb (num_ltb x y) && negb (num_ltb y x).
Proof.
  intros [p Hp] [q Hq]. unfold num_eqb, num_ltb. rewrite Hp, Hq. simpl.
  destruct (Qeq_bool p q) eqn:E.
  - apply Qeq_bool_iff in E.
    assert (H1 : Qltb p q = false) by (apply Qltb_false; rewrite E; apply Qle_refl).
    assert (H2 : Qltb q p = false) by (apply Qltb_false; rewrite E; apply Qle_refl).
    now rewrite H1, H2.
  - destruct (Qltb p q) eqn:E1; [ reflexivity | ].
    destruct (Qltb q p) eqn:E2; [ reflexivity | ].
    apply Qltb_false in E1, E2.
    assert (Heq : (p == q)%Q) by (apply Qle_antisym; assumption).
    apply Qeq_bool_iff in Heq. congruence.
Qed.

(** The quotient of two ints is a finite float. *)
Lemma truediv_finite (a b : Z) (v : pynum) :
  truediv a b = Ret v -> finite_num v.
Proof.
  unfold truediv. destruct (b =? 0); [ discriminate | ].
  destruct (SFdiv prec64 emax64 (exact_of_Z a) (exact_of_Z b)) as [s | s | | s m e];
    intros H; inversion H; subst; unfold finite_num; simpl; eauto.
Qed.

(** ** The stable sort *)

Section ListFacts.
Context {A : Type}.

Lemma StronglySorted_app (R : A -> A -> Prop) (l1 l2 : list A) :
  StronglySorted R l1 -> StronglySorted R l2 ->
  (forall x y, In x l1 -> In y l2 -> R x y) ->
  StronglySorted R (l1 ++ l2).
Proof.
  intros H1 H2 H. induction l1 as [ | a l1 IH ]; simpl; [ assumption | ].
  inversion H1; subst. constructor.
  - apply IH; [ assumption | ]. intros x y Hx Hy. apply H; simpl; auto.
  - apply Forall_app. split; [ assumption | ].
    apply Forall_forall. intros y Hy. apply H; simpl; auto.
Qed.

Lemma StronglySorted_rev (R : A -> A -> Prop) (l : list A) :
  StronglySorted R l -> StronglySorted (fun a b => R b a) (rev l).
Proof.
  induction 1 as [ | a l Hl IH Ha ]; simpl; [ constructor | ].
  apply StronglySorted_app; [ assumption | repeat constructor | ].
  intros x y Hx [<- | []]. apply in_rev in Hx.
  rewrite Forall_forall in Ha. now apply Ha.
Qed.

Lemma StronglySorted_firstn (R : A -> A -> Prop) (n : nat) (l : list A) :
  StronglySorted R l -> StronglySorted R (firstn n l).
Proof.
  intros H. revert n. induction H as [ | a l Hl IH Ha ]; intros [ | n ]; simpl;
    try constructor.
  - apply IH.
  - rewrite Forall_forall in *. intros x Hx. apply Ha.
    rewrite <- (firstn_skipn n l). apply in_or_app. now left.
Qed.

(** What a filter keeps of a prefix is a prefix of what it keeps of the
    list. *)
Lemma filter_firstn (p : A -> bool) (n : nat) (l : list A) :
  exists m, filter p (firstn n l) = firstn m (filter p l).
Proof.
  revert n. induction l as [ | a l IH ]; intros [ | n ]; simpl.
  - now exists 0%nat.
  - now exists 0%nat.
  - now exists 0%nat.
  - destruct (IH n) as [m Hm]. destruct (p a).
    + exists (S m). simpl. now rewrite Hm.
    + now exists m.
Qed.

Lemma filter_rev (p : A -> bool) (l : list A) :
  filter p (rev l) = rev (filter p l).
Proof.
  induction l as [ | a l IH ]; simpl; [ reflexivity | ].
  rewrite filter_app, IH. simpl. destruct (p a); simpl.
  - reflexivity.
  - now rewrite app_nil_r.
Qed.

Lemma slice_to_firstn (n : Z) (l : list A) :
  exists m, slice_to n l = firstn m l.
Proof.
  unfold slice_to. destruct (0 <=? n); eauto.
Qed.

Lemma slice_to_all (n : Z) (l : list A) :
  Z.of_nat (List.length l) <= n -> slice_to n l = l.
Proof.
  intros H. unfold slice_to.
  destruct (0 <=? n) eqn:E; [ | apply Z.leb_gt in E; lia ].
  apply firstn_all2. lia.
Qed.
End ListFacts.

Section SortedFacts.
Context {A K : Type} (key : A -> K) (ltb : K -> K -> bool).

(** The keys the order is well behaved on. *)
Variable ok : K -> Prop.
Hypothesis ltb_asym :
  forall x y, ok x -> ok y -> ltb x y = true -> ltb y x = false.
Hypothesis ltb_ntrans :
  forall x y z, ok x -> ok y -> ok z ->
                ltb x y = false -> ltb y z = false -> ltb x z = false.

Let oks (l : list A) : Prop := Forall (fun a => ok (key a)) l.

Lemma insert_stable_perm (x : A) (l : list A) :
  Permutation (insert_stable key ltb x l) (x :: l).
Proof.
  induction l as [ | y l IH ]; simpl; [ reflexivity | ].
  destruct (ltb (key y) (key x)); [ | reflexivity ].
  rewrite IH. apply perm_swap.
Qed.

Lemma sort_stable_perm (l : list A) : Permutation (sort_stable key ltb l) l.
Proof.
  induction l as [ | x l IH ]; simpl; [ reflexivity | ].
  rewrite insert_stable_perm. now constructor.
Qed.

Lemma py_sorted_perm (reverse : bool) (l : list A) :
  Permutation (py_sorted key ltb reverse l) l.
Proof.
  destruct reverse; simpl; [ | apply sort_stable_perm ].
  rewrite <- Permutation_rev, sort_stable_perm. symmetry. apply Permutation_rev.
Qed.

Lemma oks_perm (l l' : list A) : Permutation l l' -> oks l -> oks l'.
Proof. intros H. apply Permutation_Forall. exact H. Qed.

Lemma insert_stable_sorted (x : A) (l : list A) :
  ok (key x) -> oks l ->
  StronglySorted (key_le key ltb) l -> StronglySorted (key_le key ltb) (insert_stable key ltb x l).
Proof.
  intros Hx Hl Hs. induction Hs as [ | y l Hs IH Hy ]; simpl.
  - repeat constructor.
  - inversion Hl as [ | ? ? Hky Hl' ]; subst.
    rewrite Forall_forall in Hy.
    destruct (ltb (key y) (key x)) eqn:E.
    + constructor; [ now apply IH | ].
      apply Forall_forall. intros z Hz.
      apply (Permutation_in _ (insert_stable_perm x l)) in Hz.
      destruct Hz as [<- | Hz]; [ | now apply Hy ].
      unfold key_le. now apply ltb_asym.
    + constructor; [ now constructor; [ | apply Forall_forall ] | ].
      constructor; [ exact E | ].
      apply Forall_forall. intros z Hz. unfold key_le.
      rewrite Forall_forall in Hl'.
      apply (ltb_ntrans _ (key y)); auto. now apply Hy.
Qed.

Lemma sort_stable_sorted (l : list A) :
  oks l -> StronglySorted (key_le key ltb) (sort_stable key ltb l).
Proof.
  induction l as [ | x l IH ]; intros Hl; simpl; [ constructor | ].
  inversion Hl; subst. apply insert_stable_sorted; auto.
  apply (oks_perm l); [ symmetry; apply sort_stable_perm | assumption ].
Qed.

(** With [reverse=True] no item is below a later one. *)
Lemma py_sorted_descending (l : list A) :
  oks l ->
  StronglySorted (fun a b => ltb (key a) (key b) = false)
                 (py_sorted key ltb true l).
Proof.
  intros Hl. simpl.
  apply (StronglySorted_rev (key_le key ltb)). apply sort_stable_sorted.
  apply (oks_perm l); [ apply Permutation_rev | assumption ].
Qed.

Lemma insert_stable_filter (k : K) (x : A) (l : list A) :
  ok k -> ok (key x) -> oks l ->
  filter (same_key key ltb k) (insert_stable key ltb x l) = filter (same_key key ltb k) (x :: l).
Proof.
  intros Hk Hx Hl. induction l as [ | y l IH ]; [ reflexivity | ].
  inversion Hl as [ | ? ? Hy Hl' ]; subst.
  cbn [insert_stable]. destruct (ltb (key y) (key x)) eqn:E; [ | reflexivity ].
  cbn [filter] in *. rewrite (IH Hl').
  destruct (same_key key ltb k y) eqn:Ey; [ | reflexivity ].
  destruct (same_key key ltb k x) eqn:Ex; [ | reflexivity ].
  exfalso. unfold same_key in Ey, Ex.
  apply andb_true_iff in Ey, Ex. rewrite !negb_true_iff in Ey, Ex.
  destruct Ey as [Ey _], Ex as [_ Ex].
  rewrite (ltb_ntrans _ _ _ Hy Hk Hx Ey Ex) in E. discriminate.
Qed.

Lemma sort_stable_filter (k : K) (l : list A) :
  ok k -> oks l ->
  filter (same_key key ltb k) (sort_stable key ltb l) = filter (same_key key ltb k) l.
Proof.
  intros Hk. induction l as [ | x l IH ]; intros Hl; [ reflexivity | ].
  inversion Hl; subst. cbn [sort_stable fold_right].
  fold (sort_stable key ltb l). rewrite insert_stable_filter; auto.
  - cbn [filter]. now rewrite IH.
  - apply (oks_perm l); [ symmetry; apply sort_stable_perm | assumption ].
Qed.

(** Stability: the items of each key come out in their input order. *)
Lemma py_sorted_stable (reverse : bool) (k : K) (l : list A) :
  ok k -> oks l ->
  filter (same_key key ltb k) (py_sorted key ltb reverse l) = filter (same_key key ltb k) l.
Proof.
  intros Hk Hl. destruct reverse; simpl; [ | now apply sort_stable_filter ].
  rewrite filter_rev, sort_stable_filter, filter_rev, rev_involutive; auto.
  apply (oks_perm l); [ apply Permutation_rev | assumption ].
Qed.
End SortedFacts.

Lemma num_leb_ltb (x y : pynum) :
  finite_num x -> finite_num y -> num_leb y x = negb (num_ltb x y).
Proof.
  intros [p Hp] [q Hq]. unfold num_leb, num_ltb. rewrite Hp, Hq. simpl.
  unfold Qleb. destruct (Qltb p q) eqn:E; simpl.
  - apply Qltb_true in E. destruct (Qle_bool q p) eqn:E'; [ | reflexivity ].
    apply Qle_bool_iff in E'. exfalso. eapply Qlt_not_le; eassumption.
  - apply Qltb_false in E. now apply Qle_bool_iff.
Qed.

(** Numbers equal to ints compare as the ints do. *)
Lemma num_ltb_of_ints (x y : pynum) (a b : Z) :
  num_eqb x (PyInt a) = true -> num_eqb y (PyInt b) = true ->
  num_ltb x y = (a <? b).
Proof.
  unfold num_eqb, num_ltb. simpl num_value.
  destruct (num_value x) as [ | | p | ]; try discriminate.
  destruct (num_value y) as [ | | q | ]; try discriminate.
  intros Hp Hq. apply Qeq_bool_iff in Hp, Hq. simpl.
  destruct (a <? b) eqn:E.
  - apply Qltb_true. rewrite Hp, Hq. apply Z.ltb_lt in E. now rewrite <- Zlt_Qlt.
  - apply Qltb_false. rewrite Hp, Hq. apply Z.ltb_ge in E. now rewrite <- Zle_Qle.
Qed.

(** ** The balance fetcher *)

Lemma check_address_balance_outcome (env : Env) (address : string) :
  outcome (check_address_balance env address) =
  match to_checksum_address env address with
  | Ret checksum =>
      match token_getBalance env checksum with
      | Ret balance =>
          match truediv balance (10 ^ 18) with
          | Ret v => Ret v
          | Raise _ => Ret (PyInt 0)
          end
      | Raise _ => Ret (PyInt 0)
      end
  | Raise _ => Ret (PyInt 0)
  end.
Proof.
  unfold check_address_balance, call_getBalance.
  rewrite outcome_try_except, outcome_bind, outcome_lift.
  destruct (to_checksum_address env address) as [c | e]; [ | reflexivity ].
  rewrite !outcome_bind, outcome_emit, outcome_lift.
  destruct (token_getBalance env c) as [raw | e]; [ | reflexivity ].
  rewrite outcome_lift.
  destruct (truediv raw (10 ^ 18)); reflexivity.
Qed.

Lemma check_address_balance_returns (env : Env) (address : string) :
  exists b, outcome (check_address_balance env address) = Ret b.
Proof.
  rewrite check_address_balance_outcome.
  destruct (to_checksum_address env address); eauto.
  destruct (token_getBalance env a); eauto.
  destruct (truediv a0 (10 ^ 18)); eauto.
Qed.

Lemma finite_zero : finite_num (PyInt 0).
Proof. now exists (inject_Z 0). Qed.

Lemma check_address_balance_finite (env : Env) (address : string) (b : pynum) :
  outcome (check_address_balance env address) = Ret b -> finite_num b.
Proof.
  rewrite check_address_balance_outcome.
  destruct (to_checksum_address env address);
    [ | intros H; inversion H; apply finite_zero ].
  destruct (token_getBalance env a);
    [ | intros H; inversion H; apply finite_zero ].
  destruct (truediv a0 (10 ^ 18)) eqn:E; intros H; inversion H; subst.
  - eapply truediv_finite; eassumption.
  - apply finite_zero.
Qed.

(** The balances a request fetches: one per address, in order, all finite. *)
Lemma fetched_balances (env : Env) (addrs : list string) :
  exists bals,
    outcome (gather (map (check_address_balance env) addrs)) = Ret bals /\
    Forall2 (fun a b => outcome (check_address_balance env a) = Ret b) addrs bals /\
    Forall finite_num bals.
Proof.
  destruct (gather_map_returns (check_address_balance env) addrs
              (check_address_balance_returns env)) as (bals & Hg & Hall).
  exists bals. repeat split; try assumption.
  clear Hg. induction Hall; constructor; auto.
  eapply check_address_balance_finite; eassumption.
Qed.

Lemma combine_finite (addrs : list string) (bals : list pynum) :
  Forall finite_num bals ->
  Forall (fun p => finite_num (snd p)) (combine addrs bals).
Proof.
  intros H. revert addrs. induction H; intros [ | a addrs ]; simpl; constructor; auto.
Qed.

(** ** The ranker *)

(** [get_top] fetches one balance per address, sorts the pairs and slices. *)
Lemma get_top_outcome (env : Env) (data : AddressList) :
  exists bals,
    Forall2 (fun a b => outcome (check_address_balance env a) = Ret b)
            (addresses data) bals /\
    Forall finite_num bals /\
    outcome (get_top env data) =
    Ret {| top_addresses :=
             slice_to (N data)
               (py_sorted snd num_ltb true (combine (addresses data) bals)) |}.
Proof.
  destruct (fetched_balances env (addresses data)) as (bals & Hg & Hall & Hfin).
  exists bals. repeat split; try assumption.
  unfold get_top. rewrite outcome_bind, Hg. reflexivity.
Qed.

(** On finite balances the filter on [==] is the filter on the sort key. *)
Lemma filter_num_eqb (v : pynum) (l : list (string * pynum)) :
  finite_num v -> Forall (fun p => finite_num (snd p)) l ->
  filter (fun p => num_eqb (snd p) v) l = filter (same_key snd num_ltb v) l.
Proof.
  intros Hv Hl. apply filter_ext_in. intros p Hp.
  rewrite Forall_forall in Hl. unfold same_key. now apply num_eqb_ltb; [ apply Hl | ].
Qed.

(** No finite number is equal to a number that is not finite. *)
Lemma filter_num_eqb_nil (v : pynum) (l : list (string * pynum)) :
  ~ finite_num v -> Forall (fun p => finite_num (snd p)) l ->
  filter (fun p => num_eqb (snd p) v) l = [].
Proof.
  intros Hv Hl. induction Hl as [ | p l [q Hq] Hl IH ]; [ reflexivity | ].
  simpl. rewrite IH. unfold num_eqb. rewrite Hq.
  destruct (num_value v) as [ | | r | ] eqn:E; try reflexivity.
  exfalso. apply Hv. now exists r.
Qed.

Lemma finite_num_dec (v : pynum) : finite_num v \/ ~ finite_num v.
Proof.
  unfold finite_num. destruct (num_value v) as [ | | q | ];
    [ right | right | left; now exists q | right ]; intros [q' H]; discriminate.
Qed.

(** The ranking of all pairs is sorted, stable and complete. *)
Lemma ranking_facts (pairs : list (string * pynum)) :
  Forall (fun p => finite_num (snd p)) pairs ->
  let ranked := py_sorted snd num_ltb true pairs in
  StronglySorted (fun p q => num_leb (snd q) (snd p) = true) ranked /\
  Permutation ranked pairs /\
  forall v, filter (fun p => num_eqb (snd p) v) ranked =
            filter (fun p => num_eqb (snd p) v) pairs.
Proof.
  intros Hfin ranked.
  assert (Hperm : Permutation ranked pairs) by apply py_sorted_perm.
  assert (Hfin' : Forall (fun p => finite_num (snd p)) ranked)
    by (eapply Permutation_Forall; [ symmetry; exact Hperm | exact Hfin ]).
  split; [ | split; [ exact Hperm | ] ].
  - pose proof (py_sorted_descending snd num_ltb finite_num
                  num_ltb_asym num_ltb_ntrans pairs Hfin) as Hs.
    fold ranked in Hs.
    assert (Hin : forall p, In p ranked -> finite_num (snd p))
      by (now apply Forall_forall).
    clear - Hs Hin. induction Hs as [ | p l Hs IH Hp ]; constructor.
    + apply IH. intros q Hq. apply Hin. now right.
    + rewrite Forall_forall in *. intros q Hq.
      rewrite num_leb_ltb; [ now rewrite (Hp q Hq) | | ];
        apply Hin; simpl; auto.
  - intros v. destruct (finite_num_dec v) as [Hv | Hv].
    + rewrite !filter_num_eqb by assumption.
      now apply (py_sorted_stable snd num_ltb finite_num num_ltb_ntrans).
    + now rewrite !filter_num_eqb_nil.
Qed.

(** C1.  For every request, [get_top] returns the (address, balance) pairs
    ranked by balance in descending order: no entry has a smaller balance
    than a later one; the entries of each balance appear in their input
    order (what is kept of them is a prefix of their input sequence); when
    [N] is at least the number of addresses the whole sorted list is
    returned, a permutation of the input pairs that keeps the order of equal
    balances; and for the addresses A, B, C with balances 5, 0, 10 and
    [N = 2] the result is [(C, 10); (A, 5)]. *)
Theorem get_top_sorted_stable (env : Env) (data : AddressList) :
  exists bals out,
    Forall2 (fun a b => outcome (check_address_balance env a) = Ret b)
            (addresses data) bals /\
    outcome (get_top env data) = Ret {| top_addresses := out |} /\
    StronglySorted (fun p q => num_leb (snd q) (snd p) = true) out /\
    (forall v, exists m,
        filter (fun p => num_eqb (snd p) v) out =
        firstn m (filter (fun p => num_eqb (snd p) v)
                         (combine (addresses data) bals))) /\
    (Z.of_nat (List.length (addresses data)) <= N data ->
     out = py_sorted snd num_ltb true (combine (addresses data) bals) /\
     Permutation out (combine (addresses data) bals) /\
     forall v, filter (fun p => num_eqb (snd p) v) out =
               filter (fun p => num_eqb (snd p) v)
                      (combine (addresses data) bals)) /\
    (forall bA bB bC,
        addresses data = ["A"; "B"; "C"] -> N data = 2 ->
        bals = [bA; bB; bC] ->
        num_eqb bA (PyInt 5) = true -> num_eqb bB (PyInt 0) = true ->
        num_eqb bC (PyInt 10) = true ->
        out = [("C", bC); ("A", bA)]).
Proof.
  destruct (get_top_outcome env data) as (bals & Hall & Hfin & Hout).
  set (pairs := combine (addresses data) bals) in *.
  set (ranked := py_sorted snd num_ltb true pairs) in *.
  assert (Hpairs : Forall (fun p => finite_num (snd p)) pairs)
    by now apply combine_finite.
  destruct (ranking_facts pairs Hpairs) as (Hsorted & Hperm & Hstable).
  fold ranked in Hsorted, Hperm, Hstable.
  exists bals, (slice_to (N data) ranked).
  split; [ exact Hall | ]. split; [ exact Hout | ].
  destruct (slice_to_firstn (N data) ranked) as [k Hk].
  split; [ | split; [ | split ] ].
  - rewrite Hk. now apply StronglySorted_firstn.
  - intros v. rewrite Hk, <- Hstable. apply filter_firstn.
  - intros Hn.
    assert (Hlen : Z.of_nat (List.length ranked) <= N data).
    { rewrite (Permutation_length Hperm). unfold pairs.
      rewrite length_combine. lia. }
    rewrite (slice_to_all _ _ Hlen). auto.
  - intros bA bB bC Haddr HN Hbals HA HB HC.
    unfold ranked, pairs. rewrite Haddr, HN, Hbals.
    cbn [combine py_sorted rev app sort_stable fold_right insert_stable snd].
    rewrite (num_ltb_of_ints _ _ _ _ HA HB).
    change (5 <? 0) with false. cbv iota.
    cbn [insert_stable snd].
    rewrite (num_ltb_of_ints _ _ _ _ HB HC).
    change (0 <? 10) with true. cbv iota.
    rewrite (num_ltb_of_ints _ _ _ _ HA HC).
    reflexivity.
Qed.

(** Reads the balances off the alignment of a concrete request. *)
Ltac read_balances H :=
  repeat match type of H with
         | Forall2 _ (_ :: _) _ =>
             let H1 := fresh "Hb" in
             let H2 := fresh "Hrest" in
             inversion H as [ | ? ? ? ? H1 H2 ]; clear H; subst;
             vm_compute in H1; inversion H1; clear H1; subst;
             rename H2 into H
         | Forall2 _ [] _ => inversion H; clear H; subst
         end.

Lemma get_top_sorted_stable_witness :
  outcome (get_top sample_env top2_request) =
  Ret {| top_addresses := [("C", PyFloat float_ten); ("A", PyFloat float_five)] |}
  /\
  exists out,
    outcome (get_top sample_env top5_request) = Ret {| top_addresses := out |} /\
    Permutation out [("A", PyFloat float_five); ("B", PyFloat (S754_zero false));
                     ("C", PyFloat float_ten)].
Proof.
  split.
  - destruct (get_top_sorted_stable sample_env top2_request)
      as (bals & out & Hall & Hout & _ & _ & _ & Hex).
    simpl addresses in Hall. read_balances Hall.
    rewrite Hout. f_equal. f_equal.
    eapply Hex; reflexivity.
  - destruct (get_top_sorted_stable sample_env top5_request)
      as (bals & out & Hall & Hout & _ & _ & Hfull & _).
    simpl addresses in Hall. read_balances Hall.
    exists out. split; [ exact Hout | ].
    apply Hfull. simpl. lia.
Defined.

(** At [N = -1] the ranking of three addresses keeps two entries. *)
Lemma get_top_negative_counterexample :
  N negative_request <= 0 /\
  outcome (get_top sample_env negative_request) =
  Ret {| top_addresses := [("C", PyFloat float_ten); ("A", PyFloat float_five)] |}
  /\
  outcome (get_top sample_env negative_request) <> Ret {| top_addresses := [] |}.
Proof.
  split; [ simpl; lia | ].
  split; [ vm_compute; reflexivity | vm_compute; discriminate ].
Qed.

(** C2, amended.  For [N = 0] [get_top] returns an empty sequence; for a
    negative [N] it returns the sorted list without its last [-N] entries:
    it has as many entries as there are addresses beyond the first [-N], and
    so it is empty exactly when [-N] is at least the number of addresses. *)
Theorem get_top_nonpositive (env : Env) (data : AddressList) :
  N data <= 0 ->
  exists bals out,
    Forall2 (fun a b => outcome (check_address_balance env a) = Ret b)
            (addresses data) bals /\
    outcome (get_top env data) = Ret {| top_addresses := out |} /\
    (N data = 0 -> out = []) /\
    (N data < 0 ->
     out = firstn (List.length (addresses data) - Z.to_nat (- N data))
             (py_sorted snd num_ltb true (combine (addresses data) bals)) /\
     List.length out =
     (List.length (addresses data) - Z.to_nat (- N data))%nat /\
     (out = [] <-> Z.of_nat (List.length (addresses data)) <= - N data)).
Proof.
  intros _.
  destruct (get_top_outcome env data) as (bals & Hall & Hfin & Hout).
  set (ranked := py_sorted snd num_ltb true (combine (addresses data) bals))
    in *.
  assert (Hlen : List.length ranked = List.length (addresses data)).
  { unfold ranked.
    rewrite (Permutation_length (py_sorted_perm snd num_ltb true _)).
    rewrite length_combine. apply Forall2_length in Hall. lia. }
  exists bals, (slice_to (N data) ranked).
  split; [ exact Hall | ]. split; [ exact Hout | ]. split.
  - intros H0. rewrite H0. reflexivity.
  - intros Hneg. unfold slice_to.
    destruct (0 <=? N data) eqn:E; [ apply Z.leb_le in E; lia | ].
    rewrite Hlen. split; [ reflexivity | ].
    assert (Hcount :
      List.length (firstn (List.length (addresses data) - Z.to_nat (- N data))
                          ranked) =
      (List.length (addresses data) - Z.to_nat (- N data))%nat)
      by (rewrite length_firstn, Hlen; lia).
    split; [ exact Hcount | ]. split.
    + intros Hnil. rewrite Hnil in Hcount. simpl in Hcount. lia.
    + intros Hbig. apply length_zero_iff_nil. rewrite Hcount. lia.
Qed.

Lemma get_top_nonpositive_witness :
  outcome (get_top sample_env zero_request) = Ret {| top_addresses := [] |} /\
  outcome (get_top sample_env negative_request) =
  Ret {| top_addresses := [("C", PyFloat float_ten); ("A", PyFloat float_five)] |}.
Proof.
  split.
  - destruct (get_top_nonpositive sample_env zero_request)
      as (bals & out & _ & Hout & H0 & _).
    + simpl. lia.
    + rewrite Hout, H0; reflexivity.
  - destruct (get_top_nonpositive sample_env negative_request)
      as (bals & out & Hall & Hout & _ & Hneg).
    + simpl. lia.
    + simpl addresses in Hall. read_balances Hall.
      destruct Hneg as (Heq & _ & _); [ simpl; lia | ].
      rewrite Hout, Heq. vm_compute. reflexivity.
Defined.

(** The outcome of a [print] is that of the write to standard output. *)
Lemma outcome_print_rt (rt : Runtime) (line : string) :
  outcome (WithRuntime.print rt line) =
  match stdout_write rt line with
  | Ret _ => Ret tt
  | Raise msg => Raise msg
  end.
Proof.
  unfold WithRuntime.print. destruct (stdout_write rt line); reflexivity.
Qed.

Lemma remote_calls_print_rt (rt : Runtime) (line : string) :
  remote_calls (trace (WithRuntime.print rt line)) = [].
Proof.
  unfold WithRuntime.print. destruct (stdout_write rt line); reflexivity.
Qed.


Lemma check_address_balance_rt_outcome
    (rt : Runtime) (env : Env) (address : string) :
  outcome (WithRuntime.check_address_balance rt env address) =
  let fallback msg :=
    match stdout_write rt
            (fstr ["Ошибка при получении баланса "; address; ": "; msg]) with
    | Ret _ => Ret (PyInt 0)
    | Raise err => Raise err
    end in
  match to_checksum_address env address with
  | Ret checksum =>
      match token_getBalance env checksum with
      | Ret balance =>
          match truediv balance (10 ^ 18) with
          | Ret v => Ret v
          | Raise msg => fallback msg
          end
      | Raise msg => fallback msg
      end
  | Raise msg => fallback msg
  end.
Proof.
  assert (Hfall : forall msg,
    outcome (WithRuntime.print rt
               (fstr ["Ошибка при получении баланса "; address; ": "; msg]) ;;;
             ret (PyInt 0)) =
    match stdout_write rt
            (fstr ["Ошибка при получении баланса "; address; ": "; msg]) with
    | Ret _ => Ret (PyInt 0)
    | Raise err => Raise err
    end).
  { intros msg. rewrite outcome_bind, outcome_print_rt.
    destruct (stdout_write rt _); reflexivity. }
  unfold WithRuntime.check_address_balance, call_getBalance. cbv zeta.
  rewrite outcome_try_except, outcome_bind, outcome_lift.
  destruct (to_checksum_address env address) as [c | e]; [ | apply Hfall ].
  rewrite !outcome_bind, outcome_emit, outcome_lift.
  destruct (token_getBalance env c) as [raw | e]; [ | apply Hfall ].
  rewrite outcome_lift.
  destruct (truediv raw (10 ^ 18)); [ reflexivity | apply Hfall ].
Qed.


(** C3 on the code: when the normalization or the balance read raises,
    the except handler of [check_address_balance] prints a line that holds
    the address before it returns.  The int 0 is returned when standard
    output accepts that line; when standard output raises on it, that
    exception leaves [check_address_balance]. *)
Theorem check_address_balance_handler_print
    (rt : Runtime) (env : Env) (address msg : string) :
  to_checksum_address env address = Raise msg \/
  (exists checksum,
      to_checksum_address env address = Ret checksum /\
      token_getBalance env checksum = Raise msg) ->
  (stdout_write rt (fstr ["Ошибка при получении баланса "; address; ": "; msg])
   = Ret tt ->
   outcome (WithRuntime.check_address_balance rt env address) = Ret (PyInt 0))
  /\
  (forall err,
      stdout_write rt
        (fstr ["Ошибка при получении баланса "; address; ": "; msg])
      = Raise err ->
      outcome (WithRuntime.check_address_balance rt env address) = Raise err).
Proof.
  intros Hfail. rewrite check_address_balance_rt_outcome. cbv zeta.
  destruct Hfail as [Hc | (c & Hc & Hb)]; rewrite Hc; try rewrite Hb;
    split; intros; match goal with H : stdout_write _ _ = _ |- _ => now rewrite H end.
Qed.

Lemma check_address_balance_handler_print_witness :
  outcome (WithRuntime.check_address_balance utf8_runtime no_checksum_env
             lone_surrogate) =
  Raise "'utf-8' codec can't encode character: surrogates not allowed" /\
  outcome (WithRuntime.check_address_balance ascii_runtime sample_env "bad") =
  Raise "'ascii' codec can't encode characters: ordinal not in range(128)" /\
  outcome (WithRuntime.check_address_balance utf8_runtime sample_env "bad") =
  Ret (PyInt 0).
Proof.
  split; [ | split ].
  - apply (check_address_balance_handler_print utf8_runtime no_checksum_env
             lone_surrogate "invalid address").
    + left. reflexivity.
    + reflexivity.
  - apply (check_address_balance_handler_print ascii_runtime sample_env
             "bad" "invalid address").
    + left. reflexivity.
    + reflexivity.
  - apply (check_address_balance_handler_print utf8_runtime sample_env
             "bad" "invalid address").
    + left. reflexivity.
    + reflexivity.
Defined.

(** ** The batch aggregator *)




(** ** The token information lookup *)

Lemma get_token_info_outcome (env : Env) (token_address : string) :
  outcome (get_token_info env token_address) =
  match to_checksum_address env token_address with
  | Raise msg => Ret (TokenError msg)
  | Ret checksum =>
  match contract_symbol env checksum with
  | Raise msg => Ret (TokenError msg)
  | Ret symbol =>
  match contract_name env checksum with
  | Raise msg => Ret (TokenError msg)
  | Ret name =>
  match contract_totalSupply env checksum with
  | Raise msg => Ret (TokenError msg)
  | Ret total_supply =>
  match contract_decimals env checksum with
  | Raise msg => Ret (TokenError msg)
  | Ret decimals =>
  match truediv total_supply (10 ^ Z.of_N decimals) with
  | Raise msg => Ret (TokenError msg)
  | Ret readable => Ret (TokenInfo symbol name readable)
  end end end end end end.
Proof.
  unfold get_token_info, call_symbol, call_name, call_totalSupply, call_decimals.
  rewrite outcome_try_except, outcome_bind, outcome_lift.
  destruct (to_checksum_address env token_address) as [c | e]; [ | reflexivity ].
  rewrite !outcome_bind, outcome_emit, outcome_lift.
  destruct (contract_symbol env c) as [sym | e]; [ | reflexivity ].
  rewrite !outcome_bind, outcome_emit, outcome_lift.
  destruct (contract_name env c) as [nm | e]; [ | reflexivity ].
  rewrite !outcome_bind, outcome_emit, outcome_lift.
  destruct (contract_totalSupply env c) as [ts | e]; [ | reflexivity ].
  rewrite !outcome_bind, outcome_emit, outcome_lift.
  destruct (contract_decimals env c) as [d | e]; [ | reflexivity ].
  rewrite outcome_bind, outcome_lift.
  destruct (truediv ts (10 ^ Z.of_N d)); reflexivity.
Qed.

(** C8.  When the address normalizes and the four reads answer,
    [get_token_info] returns the raw total supply divided by ten to the
    power of the decimals the contract reports (or the error of that
    division); for 18 decimals and a raw supply of 10^18 the total supply
    returned is the float 1.0. *)
Theorem get_token_info_normalizes
    (env : Env) (token_address checksum sym nm : string) (ts : Z)
    (d : BinNums.N) :
  to_checksum_address env token_address = Ret checksum ->
  contract_symbol env checksum = Ret sym ->
  contract_name env checksum = Ret nm ->
  contract_totalSupply env checksum = Ret ts ->
  contract_decimals env checksum = Ret d ->
  outcome (get_token_info env token_address) =
  match truediv ts (10 ^ Z.of_N d) with
  | Ret readable => Ret (TokenInfo sym nm readable)
  | Raise msg => Ret (TokenError msg)
  end /\
  (d = 18%N -> ts = 10 ^ 18 ->
   outcome (get_token_info env token_address) =
   Ret (TokenInfo sym nm (PyFloat float_one))) /\
  num_eqb (PyFloat float_one) (PyInt 1) = true.
Proof.
  intros Hc Hs Hn Ht Hd.
  rewrite get_token_info_outcome, Hc, Hs, Hn, Ht, Hd.
  split; [ destruct (truediv ts (10 ^ Z.of_N d)); reflexivity | ].
  split; [ | reflexivity ].
  intros -> ->. reflexivity.
Qed.

Lemma get_token_info_normalizes_witness :
  outcome (get_token_info sample_env "T") =
  Ret (TokenInfo "TKN" "Token" (PyFloat float_one)).
Proof.
  apply (get_token_info_normalizes sample_env "T" "T" "TKN" "Token"
           (10 ^ 18) 18%N); reflexivity.
Defined.

(** C9.  [get_token_info] never raises: it returns the token's data or an
    error body; when the normalization raises, or any of the four reads
    raises, it returns an error body. *)
Theorem get_token_info_catches (env : Env) (token_address : string) :
  (exists body, outcome (get_token_info env token_address) = Ret body) /\
  (forall msg,
      to_checksum_address env token_address = Raise msg ->
      outcome (get_token_info env token_address) = Ret (TokenError msg)) /\
  (forall checksum,
      to_checksum_address env token_address = Ret checksum ->
      (exists msg, contract_symbol env checksum = Raise msg) \/
      (exists msg, contract_name env checksum = Raise msg) \/
      (exists msg, contract_totalSupply env checksum = Raise msg) \/
      (exists msg, contract_decimals env checksum = Raise msg) ->
      exists msg,
        outcome (get_token_info env token_address) = Ret (TokenError msg)).
Proof.
  rewrite get_token_info_outcome.
  destruct (to_checksum_address env token_address) as [c | e].
  2: { split; [ eauto | ]. split; [ | discriminate ].
       intros msg H. now inversion H. }
  assert (Hgoal :
    (exists body,
        match contract_symbol env c with
        | Raise msg => Ret (TokenError msg)
        | Ret symbol =>
        match contract_name env c with
        | Raise msg => Ret (TokenError msg)
        | Ret name =>
        match contract_totalSupply env c with
        | Raise msg => Ret (TokenError msg)
        | Ret total_supply =>
        match contract_decimals env c with
        | Raise msg => Ret (TokenError msg)
        | Ret decimals =>
        match truediv total_supply (10 ^ Z.of_N decimals) with
        | Raise msg => Ret (TokenError msg)
        | Ret readable => Ret (TokenInfo symbol name readable)
        end end end end end = Ret body)).
  { destruct (contract_symbol env c); eauto.
    destruct (contract_name env c); eauto.
    destruct (contract_totalSupply env c); eauto.
    destruct (contract_decimals env c); eauto.
    destruct (truediv _ _); eauto. }
  split; [ exact Hgoal | ]. split; [ discriminate | ].
  intros c' Hc' Hfail. inversion Hc'; subst c'.
  destruct (contract_symbol env c) as [sym | e1]; [ | eauto ].
  destruct (contract_name env c) as [nm | e2]; [ | eauto ].
  destruct (contract_totalSupply env c) as [ts | e3]; [ | eauto ].
  destruct (contract_decimals env c) as [d | e4]; [ | eauto ].
  exfalso. destruct Hfail as [[m H] | [[m H] | [[m H] | [m H]]]]; discriminate.
Qed.

Lemma get_token_info_catches_witness :
  outcome (get_token_info failing_env "bad") = Ret (TokenError "invalid address")
  /\ exists msg, outcome (get_token_info failing_env "T") = Ret (TokenError msg).
Proof.
  destruct (get_token_info_catches failing_env "bad") as (_ & Hnorm & _).
  destruct (get_token_info_catches failing_env "T") as (_ & _ & Hread).
  split.
  - apply Hnorm. reflexivity.
  - apply (Hread "T"); [ reflexivity | ].
    right. right. right. exists "execution reverted". reflexivity.
Defined.

(** ** The selection of the latest event *)

Lemma pair_gtb_true (p q : Z * Z) : pair_gtb p q = true <-> lex_lt q p.
Proof.
  unfold pair_gtb, lex_lt. destruct p as [a b], q as [c d]; simpl.
  destruct (a =? c) eqn:E.
  - apply Z.eqb_eq in E. rewrite Z.ltb_lt. lia.
  - apply Z.eqb_neq in E. rewrite Z.ltb_lt. lia.
Qed.

Lemma pair_gtb_false (p q : Z * Z) : pair_gtb p q = false <-> lex_le p q.
Proof.
  unfold pair_gtb, lex_le. destruct p as [a b], q as [c d]; simpl.
  destruct (a =? c) eqn:E.
  - apply Z.eqb_eq in E. rewrite Z.ltb_ge. lia.
  - apply Z.eqb_neq in E. rewrite Z.ltb_ge. lia.
Qed.

Lemma lex_lt_le_trans (p q r : Z * Z) : lex_lt p q -> lex_le q r -> lex_lt p r.
Proof. unfold lex_lt, lex_le. lia. Qed.

Lemma lex_le_lt_trans (p q r : Z * Z) : lex_le p q -> lex_lt q r -> lex_lt p r.
Proof. unfold lex_lt, lex_le. lia. Qed.

Lemma lex_lt_le (p q : Z * Z) : lex_lt p q -> lex_le p q.
Proof. unfold lex_lt, lex_le. lia. Qed.

Lemma lex_le_refl (p : Z * Z) : lex_le p p.
Proof. unfold lex_le. lia. Qed.

Section MaxFacts.
Context {A : Type} (key : A -> exc (Z * Z)).

Let parses (l : list A) : Prop := Forall (fun x => exists k, key x = Ret k) l.

(** The loop returns the first item of greatest key among the current best
    item and the remaining ones. *)
Lemma max_loop_spec (rest : list A) :
  forall maxitem maxval,
    key maxitem = Ret maxval -> parses rest ->
    exists pre e post v,
      maxitem :: rest = pre ++ e :: post /\
      max_loop key pair_gtb rest maxitem maxval = Ret e /\
      key e = Ret v /\
      lex_le maxval v /\
      (forall x k, In x pre -> key x = Ret k -> lex_lt k v) /\
      (forall x k, In x post -> key x = Ret k -> lex_le k v).
Proof.
  induction rest as [ | item rest IH ]; intros m mv Hm Hp.
  - exists [], m, [], mv. simpl.
    repeat split; auto using lex_le_refl; now intros x k [].
  - inversion Hp as [ | ? ? [val Hval] Hp' ]; subst.
    cbn [max_loop]. rewrite Hval. cbn [exc_bind].
    destruct (pair_gtb val mv) eqn:E.
    + apply pair_gtb_true in E.
      destruct (IH item val Hval Hp')
        as (pre & e & post & v & Hsplit & Hres & Hkey & Hle & Hpre & Hpost).
      exists (m :: pre), e, post, v. simpl. rewrite Hsplit.
      repeat split; auto.
      * apply lex_lt_le. eapply lex_lt_le_trans; eassumption.
      * intros x k [<- | Hx] Hk.
        -- rewrite Hm in Hk. inversion Hk; subst.
           eapply lex_lt_le_trans; eassumption.
        -- eapply Hpre; eassumption.
    + apply pair_gtb_false in E.
      destruct (IH m mv Hm Hp')
        as (pre & e & post & v & Hsplit & Hres & Hkey & Hle & Hpre & Hpost).
      destruct pre as [ | m' pre ]; simpl in Hsplit; inversion Hsplit; subst.
      * exists [], e, (item :: post), v. simpl.
        repeat split; auto; try (now intros x k []).
        intros x k [<- | Hx] Hk; [ | eapply Hpost; eassumption ].
        rewrite Hval in Hk. inversion Hk; subst.
        rewrite Hm in Hkey. inversion Hkey; subst. exact E.
      * exists (m' :: item :: pre), e, post, v. simpl. repeat split; auto.
        intros x k [<- | [<- | Hx]] Hk.
        -- eapply Hpre; [ left; reflexivity | exact Hk ].
        -- rewrite Hval in Hk. inversion Hk; subst.
           eapply lex_le_lt_trans; [ exact E | ].
           eapply Hpre; [ left; reflexivity | exact Hm ].
        -- eapply Hpre; [ right; exact Hx | exact Hk ].
Qed.

(** [max] returns the first item whose key is greatest. *)
Lemma py_max_spec (items : list A) :
  items <> [] -> parses items ->
  exists pre e post v,
    items = pre ++ e :: post /\
    py_max key pair_gtb items = Ret e /\
    key e = Ret v /\
    (forall x k, In x pre -> key x = Ret k -> lex_lt k v) /\
    (forall x k, In x post -> key x = Ret k -> lex_le k v).
Proof.
  intros Hne Hp. destruct items as [ | item rest ]; [ congruence | ].
  inversion Hp as [ | ? ? [val Hval] Hp' ]; subst.
  destruct (max_loop_spec rest item val Hval Hp')
    as (pre & e & post & v & Hsplit & Hres & Hkey & _ & Hpre & Hpost).
  exists pre, e, post, v. cbn [py_max]. rewrite Hval. cbn [exc_bind].
  repeat split; auto.
Qed.
End MaxFacts.

(** ** The transaction recency enricher *)

(** One step of a handler whose next outcome is known. *)
Ltac step :=
  cbn [bind lift emit print ret raise try_except outcome trace fst snd app].

(** C7.  When the explorer's response carries a status other than ["1"], or
    an empty result list, [get_last_transaction_date] returns the
    "No transactions found" string: it neither raises nor returns the error
    string. *)
Theorem get_last_transaction_date_none_found
    (env : Env) (address checksum : string) (current_block : Z)
    (data status : pyval) :
  to_checksum_address env address = Ret checksum ->
  eth_block_number env = Ret current_block ->
  http_get_json env (getLogs_url env checksum current_block) = Ret data ->
  py_getitem data "status" = Ret status ->
  py_ne_str status "1" = true \/ py_getitem data "result" = Ret (PList []) ->
  outcome (get_last_transaction_date env address) = Ret "No transactions found".
Proof.
  intros Hc Hb Hh Hs Hcase.
  unfold get_last_transaction_date, call_block_number, call_http_get.
  rewrite Hc. step. rewrite Hb. step. rewrite Hh. step. rewrite Hs. step.
  destruct (py_ne_str status "1") eqn:E.
  - step. reflexivity.
  - destruct Hcase as [Hne | Hr]; [ discriminate | ].
    rewrite Hr. step. reflexivity.
Qed.

Lemma get_last_transaction_date_none_found_witness :
  outcome (get_last_transaction_date quiet_env "A") = Ret "No transactions found".
Proof.
  apply (get_last_transaction_date_none_found quiet_env "A" "A" 50000000
           empty_logs (PStr "0")); try reflexivity.
  left. reflexivity.
Defined.

(** The block number read off an event is the first component of its key. *)
Lemma event_key_block (e : pyval) (bn ti : Z) :
  event_key e = Ret (bn, ti) ->
  exists field, py_getitem e "blockNumber" = Ret field /\ py_int16 field = Ret bn.
Proof.
  unfold event_key. destruct (py_getitem e "blockNumber") as [f | ]; [ | discriminate ].
  cbn [exc_bind]. destruct (py_int16 f) as [n | ] eqn:En; [ | discriminate ].
  cbn [exc_bind]. destruct (py_getitem e "transactionIndex") as [t | ]; [ | discriminate ].
  cbn [exc_bind]. destruct (py_int16 t) as [n' | ]; [ | discriminate ].
  cbn [exc_bind]. intros H. inversion H; subst. now exists f.
Qed.

(** [datetime.datetime] called with the timestamp alone raises. *)
Lemma datetime_of_timestamp_raises (timestamp : Z) :
  datetime_datetime [timestamp] =
  Raise "function missing required argument 'month' (pos 2)".
Proof. reflexivity. Qed.

(** The run of the enricher once the explorer has answered with events and
    the latest one is selected: the block of that event is looked up, and
    the answer is the error string whatever the lookup yields. *)
Lemma get_last_transaction_date_with_events
    (env : Env) (address checksum : string) (current_block : Z)
    (data : pyval) (items : list pyval) (e : pyval) (bn ti : Z) :
  to_checksum_address env address = Ret checksum ->
  eth_block_number env = Ret current_block ->
  http_get_json env (getLogs_url env checksum current_block) = Ret data ->
  py_getitem data "status" = Ret (PStr "1") ->
  py_getitem data "result" = Ret (PList items) ->
  items <> [] ->
  py_max event_key pair_gtb items = Ret e ->
  event_key e = Ret (bn, ti) ->
  outcome (get_last_transaction_date env address) =
  Ret "Error retrieving transaction date" /\
  remote_calls (trace (get_last_transaction_date env address)) =
  [EthBlockNumber; HttpGet (getLogs_url env checksum current_block);
   EthGetBlock bn].
Proof.
  intros Hc Hb Hh Hs Hr Hne Hmax Hkey.
  destruct (event_key_block e bn ti Hkey) as (field & Hf & Hbn).
  unfold get_last_transaction_date, call_block_number, call_http_get,
    call_get_block.
  rewrite Hc. step. rewrite Hb. step. rewrite Hh. step. rewrite Hs. step.
  change (py_ne_str (PStr "1") "1") with false. cbv iota.
  rewrite Hr. step.
  destruct items as [ | item rest ]; [ congruence | ].
  cbn [truthy negb py_iter]. step.
  rewrite Hmax. step. rewrite Hf. step. rewrite Hbn. step.
  destruct (eth_get_block env bn) as [block | msg]; step.
  - rewrite datetime_of_timestamp_raises. step. split; reflexivity.
  - split; reflexivity.
Qed.

(** C5 on the code: whenever the explorer answers with a success status and
    a non-empty result, the latest event is selected and its block lookup
    succeeds, [get_last_transaction_date] returns the error string, not a
    date: the constructor [datetime.datetime] is called with the timestamp
    as its only argument and raises. *)
Theorem get_last_transaction_date_success_path
    (env : Env) (address checksum : string) (current_block : Z)
    (data : pyval) (items : list pyval) (e : pyval) (bn ti : Z)
    (block : BlockData) :
  to_checksum_address env address = Ret checksum ->
  eth_block_number env = Ret current_block ->
  http_get_json env (getLogs_url env checksum current_block) = Ret data ->
  py_getitem data "status" = Ret (PStr "1") ->
  py_getitem data "result" = Ret (PList items) ->
  items <> [] ->
  py_max event_key pair_gtb items = Ret e ->
  event_key e = Ret (bn, ti) ->
  eth_get_block env bn = Ret block ->
  outcome (get_last_transaction_date env address) =
  Ret "Error retrieving transaction date".
Proof.
  intros Hc Hb Hh Hs Hr Hne Hmax Hkey _.
  eapply get_last_transaction_date_with_events; eassumption.
Qed.

Lemma get_last_transaction_date_success_path_witness :
  outcome (get_last_transaction_date sample_env "A") =
  Ret "Error retrieving transaction date".
Proof.
  apply (get_last_transaction_date_success_path sample_env "A" "A" 50000000
           sample_logs
           [sample_event "0x10" "0x1"; sample_event "0x2f" "0x0";
            sample_event "0x2f" "0x3"; sample_event "0x2e" "0x9"]
           (sample_event "0x2f" "0x3") 47 3 {| timestamp := 1700000000 |});
    try reflexivity.
  discriminate.
Defined.

(** C6.  When the explorer answers with a success status and a non-empty
    list of events whose block numbers and transaction indices parse as
    hexadecimal numbers, the event selected is the first whose pair
    (blockNumber, transactionIndex) is greatest in the lexicographic order,
    and the block looked up is the block of that event. *)
Theorem get_last_transaction_date_selects_latest
    (env : Env) (address checksum : string) (current_block : Z)
    (data : pyval) (items : list pyval) :
  to_checksum_address env address = Ret checksum ->
  eth_block_number env = Ret current_block ->
  http_get_json env (getLogs_url env checksum current_block) = Ret data ->
  py_getitem data "status" = Ret (PStr "1") ->
  py_getitem data "result" = Ret (PList items) ->
  items <> [] ->
  Forall (fun e => exists k, event_key e = Ret k) items ->
  exists pre e post bn ti,
    items = pre ++ e :: post /\
    py_max event_key pair_gtb items = Ret e /\
    event_key e = Ret (bn, ti) /\
    (forall x k, In x pre -> event_key x = Ret k -> lex_lt k (bn, ti)) /\
    (forall x k, In x post -> event_key x = Ret k -> lex_le k (bn, ti)) /\
    remote_calls (trace (get_last_transaction_date env address)) =
    [EthBlockNumber; HttpGet (getLogs_url env checksum current_block);
     EthGetBlock bn].
Proof.
  intros Hc Hb Hh Hs Hr Hne Hparse.
  destruct (py_max_spec event_key items Hne Hparse)
    as (pre & e & post & [bn ti] & Hsplit & Hmax & Hkey & Hpre & Hpost).
  exists pre, e, post, bn, ti. repeat split; try assumption.
  eapply get_last_transaction_date_with_events; eassumption.
Qed.

Lemma get_last_transaction_date_selects_latest_witness :
  py_max event_key pair_gtb
    [sample_event "0x10" "0x1"; sample_event "0x2f" "0x0";
     sample_event "0x2f" "0x3"; sample_event "0x2e" "0x9"] =
  Ret (sample_event "0x2f" "0x3") /\
  exists url,
    remote_calls (trace (get_last_transaction_date sample_env "A")) =
    [EthBlockNumber; HttpGet url; EthGetBlock 47].
Proof.
  destruct (get_last_transaction_date_selects_latest sample_env "A" "A" 50000000
              sample_logs
              [sample_event "0x10" "0x1"; sample_event "0x2f" "0x0";
               sample_event "0x2f" "0x3"; sample_event "0x2e" "0x9"])
    as (pre & e & post & bn & ti & _ & Hmax & Hkey & _ & _ & Hcalls);
    try reflexivity.
  - discriminate.
  - repeat constructor; eexists; reflexivity.
  - vm_compute in Hmax. inversion Hmax; subst e.
    vm_compute in Hkey. inversion Hkey; subst bn ti.
    split; [ reflexivity | ]. eexists. exact Hcalls.
Defined.

(** Splits the outcome of a sequence on the outcome of its first step. *)
Ltac split_bind E :=
  rewrite outcome_bind in E;
  match type of E with
  | match outcome ?m with _ => _ end = _ =>
      let a := fresh "a" in
      destruct (outcome m) as [a | ?]; [ | discriminate E ]
  end.

(** The enricher never raises and never returns anything but one of its two
    fixed strings. *)
Lemma get_last_transaction_date_sentinel (env : Env) (address : string) :
  outcome (get_last_transaction_date env address) = Ret "No transactions found"
  \/
  outcome (get_last_transaction_date env address) =
  Ret "Error retrieving transaction date".
Proof.
  unfold get_last_transaction_date. rewrite outcome_try_except.
  match goal with
  | |- context [match outcome ?m with _ => _ end] =>
      destruct (outcome m) as [s | msg] eqn:E
  end; [ left | right; reflexivity ].
  do 4 split_bind E.
  rewrite outcome_bind in E.
  match type of E with
  | match outcome ?m with _ => _ end = _ =>
      destruct (outcome m) as [[ | ] | ?]; [ | | discriminate E ]
  end.
  - split_bind E. rewrite outcome_ret in E. now rewrite <- E.
  - do 6 split_bind E.
    rewrite outcome_bind, outcome_lift, datetime_of_timestamp_raises in E.
    discriminate E.
Qed.

Lemma get_last_transaction_date_returns (env : Env) (address : string) :
  exists date, outcome (get_last_transaction_date env address) = Ret date.
Proof.
  destruct (get_last_transaction_date_sentinel env address) as [H | H]; eauto.
Qed.

(** ** The enriched ranking *)

Lemma enrich_loop_outcome (env : Env) (entries : list (string * pynum)) :
  forall acc,
  exists enriched,
    outcome (enrich_loop env entries acc) = Ret (acc ++ enriched) /\
    map fst enriched = entries.
Proof.
  induction entries as [ | [address balance] rest IH ]; intros acc.
  - exists []. split; [ | reflexivity ]. cbn [enrich_loop]. now rewrite app_nil_r.
  - destruct (get_last_transaction_date_returns env address) as [date Hd].
    destruct (IH (acc ++ [(address, balance, date)])) as (enriched & Hout & Hmap).
    exists ((address, balance, date) :: enriched). split.
    + cbn [enrich_loop]. rewrite outcome_bind, Hd, Hout, <- app_assoc. reflexivity.
    + cbn [map fst]. now rewrite Hmap.
Qed.

(** C10.  For every request, dropping the date of each triple returned by
    [get_top_with_transactions] gives the sequence of (address, balance)
    pairs [get_top] returns for the same request. *)
Theorem get_top_with_transactions_projects (env : Env) (data : AddressList) :
  exists top enriched,
    outcome (get_top env data) = Ret {| top_addresses := top |} /\
    outcome (get_top_with_transactions env data) =
    Ret {| top_addresses_with_transactions := enriched |} /\
    map fst enriched = top.
Proof.
  destruct (fetched_balances env (addresses data)) as (bals & Hg & _ & _).
  set (top := slice_to (N data)
                (py_sorted snd num_ltb true (combine (addresses data) bals))).
  destruct (enrich_loop_outcome env top []) as (enriched & Hout & Hmap).
  exists top, enriched. split; [ | split; [ | exact Hmap ] ].
  - unfold get_top. rewrite outcome_bind, Hg. reflexivity.
  - unfold get_top_with_transactions. rewrite outcome_bind, Hg.
    fold top. rewrite outcome_bind, Hout. reflexivity.
Qed.

(** * Further properties of the handlers *)

(** ** Logs *)

Lemma trace_lift {A} (r : exc A) : trace (lift r) = [].
Proof. reflexivity. Qed.

Lemma remote_calls_app (l1 l2 : list event) :
  remote_calls (l1 ++ l2) = remote_calls l1 ++ remote_calls l2.
Proof. apply filter_app. Qed.

Lemma remote_calls_flat_map {A} (f : A -> list event) (l : list A) :
  remote_calls (flat_map f l) = flat_map (fun a => remote_calls (f a)) l.
Proof.
  induction l as [ | a l IH ]; simpl; [ reflexivity | ].
  now rewrite remote_calls_app, IH.
Qed.

Lemma flat_map_length_le {A B} (f : A -> list B) (l : list A) :
  (forall a, (List.length (f a) <= 1)%nat) ->
  (List.length (flat_map f l) <= List.length l)%nat.
Proof.
  intros Hf. induction l as [ | a l IH ]; simpl; [ lia | ].
  rewrite length_app. specialize (Hf a). lia.
Qed.

(** The log of [gather] over tasks that return is the concatenation of
    their logs. *)
Lemma gather_map_trace {A B} (f : A -> M B) (l : list A) :
  (forall a, exists b, outcome (f a) = Ret b) ->
  trace (gather (map f l)) = flat_map (fun a => trace (f a)) l.
Proof.
  intros Hf. induction l as [ | a l IH ]; [ reflexivity | ].
  cbn [map gather flat_map].
  destruct (Hf a) as [b Hb].
  destruct (gather_map_returns f l Hf) as (bs & Hbs & _).
  rewrite trace_bind, Hb, trace_bind, Hbs, IH.
  cbn [ret trace fst]. now rewrite app_nil_r.
Qed.

Lemma gather_app_outcome {A} (t1 t2 : list (M A)) (b1 b2 : list A) :
  outcome (gather t1) = Ret b1 -> outcome (gather t2) = Ret b2 ->
  outcome (gather (t1 ++ t2)) = Ret (b1 ++ b2).
Proof.
  revert b1. induction t1 as [ | t t1 IH ]; intros b1 H1 H2.
  - cbn in H1. inversion H1; subst. exact H2.
  - cbn [app gather] in *. rewrite outcome_bind in *.
    destruct (outcome t) as [x | e]; [ | discriminate ].
    rewrite outcome_bind in *.
    destruct (outcome (gather t1)) as [xs | e] eqn:E; [ | discriminate ].
    rewrite outcome_ret in H1. inversion H1; subst.
    rewrite (IH xs eq_refl H2). reflexivity.
Qed.

(** ** The balance fetcher *)

Lemma check_address_balance_trace (env : Env) (address : string) :
  trace (check_address_balance env address) =
  match to_checksum_address env address with
  | Raise msg =>
      [Stdout (fstr ["Ошибка при получении баланса "; address; ": "; msg])]
  | Ret checksum =>
      CallGetBalance checksum ::
      match token_getBalance env checksum with
      | Raise msg =>
          [Stdout (fstr ["Ошибка при получении баланса "; address; ": "; msg])]
      | Ret balance =>
          match truediv balance (10 ^ 18) with
          | Raise msg =>
              [Stdout (fstr ["Ошибка при получении баланса "; address; ": ";
                             msg])]
          | Ret _ => []
          end
      end
  end.
Proof.
  unfold check_address_balance, call_getBalance.
  destruct (to_checksum_address env address) as [c | e]; step; [ | reflexivity ].
  destruct (token_getBalance env c) as [raw | e]; step; [ | reflexivity ].
  destruct (truediv raw (10 ^ 18)); reflexivity.
Qed.

(** X1.  [check_address_balance] issues at most one remote read: none when
    the address does not normalize, otherwise the single [getBalance] read
    of the normalized address; and when everything succeeds it prints
    nothing. *)
Theorem check_address_balance_one_read (env : Env) (address : string) :
  remote_calls (trace (check_address_balance env address)) =
  match to_checksum_address env address with
  | Ret checksum => [CallGetBalance checksum]
  | Raise _ => []
  end /\
  (forall checksum balance v,
      to_checksum_address env address = Ret checksum ->
      token_getBalance env checksum = Ret balance ->
      truediv balance (10 ^ 18) = Ret v ->
      trace (check_address_balance env address) = [CallGetBalance checksum]).
Proof.
  rewrite check_address_balance_trace. split.
  - destruct (to_checksum_address env address) as [c | e]; [ | reflexivity ].
    destruct (token_getBalance env c) as [raw | e]; [ | reflexivity ].
    destruct (truediv raw (10 ^ 18)); reflexivity.
  - intros c raw v Hc Hb Hv. now rewrite Hc, Hb, Hv.
Qed.

Lemma check_address_balance_one_read_witness :
  trace (check_address_balance sample_env "A") = [CallGetBalance "A"].
Proof.
  apply (check_address_balance_one_read sample_env "A")
    with (balance := 5 * 10 ^ 18) (v := PyFloat float_five); reflexivity.
Defined.

(** X2.  A balance read that returns 0 yields the float 0.0, which compares
    equal to the int 0 returned when the fetch fails: the caller cannot tell
    an empty account from a failed lookup by comparing balances. *)
Theorem check_address_balance_zero_ambiguous
    (env : Env) (address checksum : string) :
  to_checksum_address env address = Ret checksum ->
  token_getBalance env checksum = Ret 0 ->
  outcome (check_address_balance env address) = Ret (PyFloat (S754_zero false))
  /\ num_eqb (PyFloat (S754_zero false)) (PyInt 0) = true.
Proof.
  intros Hc Hb. rewrite check_address_balance_outcome, Hc, Hb.
  split; reflexivity.
Qed.

Lemma check_address_balance_zero_ambiguous_witness :
  outcome (check_address_balance sample_env "B") = Ret (PyFloat (S754_zero false)).
Proof.
  apply (check_address_balance_zero_ambiguous sample_env "B" "B"); reflexivity.
Defined.

(** ** The token information lookup *)

(** X3.  [get_token_info] prints nothing and reads the contract in the
    order symbol, name, totalSupply, decimals, stopping at the first read
    that raises: no read when the address does not normalize; the symbol
    read alone when it raises; symbol and name when the name read raises;
    symbol, name and totalSupply when the totalSupply read raises; and all
    four once the first three have answered. *)
Theorem get_token_info_reads (env : Env) (token_address : string) :
  (forall msg,
      to_checksum_address env token_address = Raise msg ->
      trace (get_token_info env token_address) = []) /\
  (forall checksum,
      to_checksum_address env token_address = Ret checksum ->
      (forall msg,
          contract_symbol env checksum = Raise msg ->
          trace (get_token_info env token_address) = [CallSymbol checksum]) /\
      (forall sym msg,
          contract_symbol env checksum = Ret sym ->
          contract_name env checksum = Raise msg ->
          trace (get_token_info env token_address) =
          [CallSymbol checksum; CallName checksum]) /\
      (forall sym nm msg,
          contract_symbol env checksum = Ret sym ->
          contract_name env checksum = Ret nm ->
          contract_totalSupply env checksum = Raise msg ->
          trace (get_token_info env token_address) =
          [CallSymbol checksum; CallName checksum; CallTotalSupply checksum]) /\
      (forall sym nm supply,
          contract_symbol env checksum = Ret sym ->
          contract_name env checksum = Ret nm ->
          contract_totalSupply env checksum = Ret supply ->
          trace (get_token_info env token_address) =
          [CallSymbol checksum; CallName checksum; CallTotalSupply checksum;
           CallDecimals checksum])).
Proof.
  unfold get_token_info, call_symbol, call_name, call_totalSupply, call_decimals.
  split.
  - intros msg Hc. rewrite Hc. reflexivity.
  - intros c Hc. rewrite Hc. step. repeat split.
    + intros msg Hs. rewrite Hs. reflexivity.
    + intros sym msg Hs Hn. rewrite Hs. step. rewrite Hn. reflexivity.
    + intros sym nm msg Hs Hn Ht. rewrite Hs. step. rewrite Hn. step.
      rewrite Ht. reflexivity.
    + intros sym nm ts Hs Hn Ht. rewrite Hs. step. rewrite Hn. step.
      rewrite Ht. step.
      destruct (contract_decimals env c) as [d | e]; step; [ | reflexivity ].
      destruct (truediv ts (10 ^ Z.of_N d)); reflexivity.
Qed.

Lemma get_token_info_reads_witness :
  trace (get_token_info sample_env "bad") = [] /\
  trace (get_token_info sample_env "T") =
  [CallSymbol "T"; CallName "T"; CallTotalSupply "T"; CallDecimals "T"] /\
  trace (get_token_info failing_env "T") =
  [CallSymbol "T"; CallName "T"; CallTotalSupply "T"; CallDecimals "T"].
Proof.
  destruct (get_token_info_reads sample_env "bad") as [Hbad _].
  destruct (get_token_info_reads sample_env "T") as [_ Hok].
  destruct (get_token_info_reads failing_env "T") as [_ Hfail].
  split; [ | split ].
  - apply (Hbad "invalid address"). reflexivity.
  - destruct (Hok "T" eq_refl) as (_ & _ & _ & Hall).
    apply (Hall "TKN" "Token" (10 ^ 18)); reflexivity.
  - destruct (Hfail "T" eq_refl) as (_ & _ & _ & Hall).
    apply (Hall "TKN" "Token" (10 ^ 18)); reflexivity.
Defined.

(** ** The batch aggregator *)

Lemma get_balance_batch_outcome
    (env : Env) (data : AddressList) (app_state : AppState) :
  exists bals,
    outcome (gather (map (check_address_balance env) (addresses data))) = Ret bals
    /\
    outcome (get_balance_batch env data app_state) =
    Ret {| balances := bals; symbol := token_symbol app_state |}.
Proof.
  destruct (fetched_balances env (addresses data)) as (bals & Hg & _ & _).
  exists bals. split; [ exact Hg | ].
  unfold get_balance_batch. rewrite outcome_bind, Hg. reflexivity.
Qed.

(** X4.  The batch over a concatenation of address lists returns the
    concatenation of the balances of the two batches; the value of [N] plays
    no part. *)
Theorem get_balance_batch_app
    (env : Env) (l1 l2 : list string) (n1 n2 n : Z) (app_state : AppState) :
  exists b1 b2,
    outcome (get_balance_batch env {| N := n1; addresses := l1 |} app_state) =
    Ret {| balances := b1; symbol := token_symbol app_state |} /\
    outcome (get_balance_batch env {| N := n2; addresses := l2 |} app_state) =
    Ret {| balances := b2; symbol := token_symbol app_state |} /\
    outcome (get_balance_batch env {| N := n; addresses := l1 ++ l2 |} app_state)
    = Ret {| balances := b1 ++ b2; symbol := token_symbol app_state |}.
Proof.
  destruct (get_balance_batch_outcome env {| N := n1; addresses := l1 |} app_state)
    as (b1 & Hg1 & H1).
  destruct (get_balance_batch_outcome env {| N := n2; addresses := l2 |} app_state)
    as (b2 & Hg2 & H2).
  exists b1, b2. split; [ exact H1 | ]. split; [ exact H2 | ].
  cbn [addresses] in Hg1, Hg2.
  unfold get_balance_batch. cbn [addresses].
  rewrite outcome_bind, map_app, (gather_app_outcome _ _ _ _ Hg1 Hg2).
  reflexivity.
Qed.

Lemma get_balance_batch_rt_balances
    (rt : Runtime) (env : Env) (data : AddressList) (app_state : AppState)
    (bals : list pynum) :
  outcome (WithRuntime.get_balance_batch rt env data app_state) =
  Ret {| balances := bals; symbol := token_symbol app_state |} ->
  outcome (gather (map (WithRuntime.check_address_balance rt env)
                       (addresses data))) = Ret bals.
Proof.
  unfold WithRuntime.get_balance_batch. rewrite outcome_bind.
  destruct (outcome (gather _)) as [b | e]; [ | discriminate ].
  rewrite outcome_ret. intros H. inversion H. reflexivity.
Qed.

(** The first task that raises, after tasks that return, makes [gather]
    raise. *)
Lemma gather_app_raise {A} (t1 t2 : list (M A)) (t : M A) (b1 : list A)
    (err : string) :
  outcome (gather t1) = Ret b1 -> outcome t = Raise err ->
  outcome (gather (t1 ++ t :: t2)) = Raise err.
Proof.
  revert b1. induction t1 as [ | t' t1 IH ]; intros b1 H1 Ht.
  - cbn [app gather]. now rewrite outcome_bind, Ht.
  - cbn [app gather] in *. rewrite outcome_bind in *.
    destruct (outcome t') as [x | e]; [ | discriminate ].
    rewrite outcome_bind in *.
    destruct (outcome (gather t1)) as [xs | e] eqn:E; [ | discriminate ].
    now rewrite (IH xs eq_refl Ht).
Qed.

(** X5.  In a batch whose other addresses yield balances, an address that
    does not normalize yields the int 0 at its position, the other entries
    being those of the batches before and after it, provided standard output
    accepts the line printed for it; when standard output raises on that
    line the batch raises that exception and returns no balances. *)
Theorem get_balance_batch_bad_address
    (rt : Runtime) (env : Env) (before after : list string) (bad msg : string)
    (n : Z) (app_state : AppState) (b1 b2 : list pynum) :
  to_checksum_address env bad = Raise msg ->
  outcome (WithRuntime.get_balance_batch rt env
             {| N := n; addresses := before |} app_state) =
  Ret {| balances := b1; symbol := token_symbol app_state |} ->
  outcome (WithRuntime.get_balance_batch rt env
             {| N := n; addresses := after |} app_state) =
  Ret {| balances := b2; symbol := token_symbol app_state |} ->
  (stdout_write rt (fstr ["Ошибка при получении баланса "; bad; ": "; msg])
   = Ret tt ->
   outcome (WithRuntime.get_balance_batch rt env
              {| N := n; addresses := before ++ bad :: after |} app_state) =
   Ret {| balances := b1 ++ PyInt 0 :: b2; symbol := token_symbol app_state |})
  /\
  (forall err,
      stdout_write rt (fstr ["Ошибка при получении баланса "; bad; ": "; msg])
      = Raise err ->
      outcome (WithRuntime.get_balance_batch rt env
                 {| N := n; addresses := before ++ bad :: after |} app_state) =
      Raise err).
Proof.
  intros Hbad H1 H2.
  apply get_balance_batch_rt_balances in H1, H2. cbn [addresses] in H1, H2.
  pose proof (check_address_balance_rt_outcome rt env bad) as Hcab.
  rewrite Hbad in Hcab. cbv beta iota zeta in Hcab.
  unfold WithRuntime.get_balance_batch. cbn [addresses].
  rewrite outcome_bind, map_app. cbn [map]. split.
  - intros Hw. rewrite Hw in Hcab.
    assert (Hg : outcome (gather (WithRuntime.check_address_balance rt env bad
                                  :: map (WithRuntime.check_address_balance rt env)
                                       after)) = Ret (PyInt 0 :: b2)).
    { cbn [gather]. rewrite outcome_bind, Hcab, outcome_bind, H2. reflexivity. }
    rewrite (gather_app_outcome _ _ _ _ H1 Hg). reflexivity.
  - intros err Hw. rewrite Hw in Hcab.
    now rewrite (gather_app_raise _ _ _ _ _ H1 Hcab).
Qed.

Lemma get_balance_batch_bad_address_witness :
  outcome (WithRuntime.get_balance_batch utf8_runtime sample_env
             {| N := 0; addresses := ["A"; "B"] ++ "bad" :: ["C"] |}
             {| token_symbol := "TKN" |}) =
  Ret {| balances := [PyFloat float_five; PyFloat (S754_zero false)] ++
                     PyInt 0 :: [PyFloat float_ten];
         symbol := "TKN" |} /\
  outcome (WithRuntime.get_balance_batch utf8_runtime no_checksum_env
             {| N := 0; addresses := [] ++ lone_surrogate :: [] |}
             {| token_symbol := "TKN" |}) =
  Raise "'utf-8' codec can't encode character: surrogates not allowed".
Proof.
  split.
  - apply (get_balance_batch_bad_address utf8_runtime sample_env
             ["A"; "B"] ["C"] "bad" "invalid address" 0
             {| token_symbol := "TKN" |}); reflexivity.
  - apply (get_balance_batch_bad_address utf8_runtime no_checksum_env
             [] [] lone_surrogate "invalid address" 0
             {| token_symbol := "TKN" |} [] []); reflexivity.
Defined.

(** X6.  A batch issues one [getBalance] read for each address that
    normalizes, in input order, and none for the others; so it never issues
    more reads than it has addresses. *)
Theorem get_balance_batch_reads
    (env : Env) (data : AddressList) (app_state : AppState) :
  remote_calls (trace (get_balance_batch env data app_state)) =
  flat_map (fun a => match to_checksum_address env a with
                     | Ret checksum => [CallGetBalance checksum]
                     | Raise _ => []
                     end) (addresses data) /\
  (List.length (remote_calls (trace (get_balance_batch env data app_state)))
   <= List.length (addresses data))%nat.
Proof.
  assert (Htrace :
    remote_calls (trace (get_balance_batch env data app_state)) =
    flat_map (fun a => match to_checksum_address env a with
                       | Ret checksum => [CallGetBalance checksum]
                       | Raise _ => []
                       end) (addresses data)).
  { destruct (fetched_balances env (addresses data)) as (bals & Hg & _ & _).
    unfold get_balance_batch. rewrite trace_bind, Hg.
    cbn [ret trace fst]. rewrite app_nil_r.
    rewrite (gather_map_trace _ _ (check_address_balance_returns env)).
    rewrite remote_calls_flat_map. apply flat_map_ext. intros a.
    rewrite check_address_balance_trace.
    destruct (to_checksum_address env a) as [c | e]; [ | reflexivity ].
    destruct (token_getBalance env c) as [raw | e]; [ | reflexivity ].
    destruct (truediv raw (10 ^ 18)); reflexivity. }
  split; [ exact Htrace | ]. rewrite Htrace.
  apply flat_map_length_le. intros a.
  destruct (to_checksum_address env a); simpl; lia.
Qed.

(** ** The ranker *)

Lemma get_top_of_balances (env : Env) (data : AddressList) (bals : list pynum) :
  outcome (gather (map (check_address_balance env) (addresses data))) = Ret bals ->
  outcome (get_top env data) =
  Ret {| top_addresses :=
           slice_to (N data)
             (py_sorted snd num_ltb true (combine (addresses data) bals)) |}.
Proof.
  intros Hg. unfold get_top. rewrite outcome_bind, Hg. reflexivity.
Qed.

Lemma ranked_length (addrs : list string) (bals : list pynum) :
  List.length bals = List.length addrs ->
  List.length (py_sorted snd num_ltb true (combine addrs bals)) =
  List.length addrs.
Proof.
  intros H. rewrite (Permutation_length (py_sorted_perm snd num_ltb true _)).
  rewrite length_combine. lia.
Qed.

Lemma slice_to_length {A} (n : Z) (l : list A) :
  0 <= n -> List.length (slice_to n l) = Nat.min (Z.to_nat n) (List.length l).
Proof.
  intros H. unfold slice_to.
  destruct (0 <=? n) eqn:E; [ apply length_firstn | apply Z.leb_gt in E; lia ].
Qed.

Lemma slice_to_length_le {A} (n : Z) (l : list A) :
  (List.length (slice_to n l) <= List.length l)%nat.
Proof.
  destruct (slice_to_firstn n l) as [k ->]. rewrite length_firstn. lia.
Qed.

Lemma map_snd_combine {A B} (l : list A) (l' : list B) :
  List.length l = List.length l' -> map snd (combine l l') = l'.
Proof.
  revert l'. induction l as [ | a l IH ]; intros [ | b l' ] H; simpl in *;
    try discriminate; [ reflexivity | ].
  f_equal. apply IH. lia.
Qed.

Lemma map_fst_combine {A B} (l : list A) (l' : list B) :
  List.length l = List.length l' -> map fst (combine l l') = l.
Proof.
  revert l'. induction l as [ | a l IH ]; intros [ | b l' ] H; simpl in *;
    try discriminate; [ reflexivity | ].
  f_equal. apply IH. lia.
Qed.

Lemma num_leb_refl (x : pynum) : finite_num x -> num_leb x x = true.
Proof.
  intros Hx. rewrite (num_leb_ltb x x Hx Hx).
  destruct (num_ltb x x) eqn:E; [ | reflexivity ].
  rewrite (num_ltb_asym x x Hx Hx E) in E. discriminate.
Qed.

(** X7.  [get_top] never returns more entries than it was given addresses,
    and for [N >= 0] it returns exactly min(N, number of addresses) entries,
    hence at most [N]. *)
Theorem get_top_length (env : Env) (data : AddressList) :
  exists out,
    outcome (get_top env data) = Ret {| top_addresses := out |} /\
    (List.length out <= List.length (addresses data))%nat /\
    (0 <= N data ->
     List.length out =
     Nat.min (Z.to_nat (N data)) (List.length (addresses data)) /\
     Z.of_nat (List.length out) <= N data).
Proof.
  destruct (get_top_outcome env data) as (bals & Hall & _ & Hout).
  assert (Hlen := ranked_length (addresses data) bals
                    (eq_sym (Forall2_length Hall))).
  eexists. split; [ exact Hout | ]. split.
  - rewrite <- Hlen. apply slice_to_length_le.
  - intros Hn. rewrite slice_to_length, Hlen by assumption. split; lia.
Qed.

Lemma get_top_length_witness :
  exists out,
    outcome (get_top sample_env top2_request) = Ret {| top_addresses := out |} /\
    List.length out = 2%nat.
Proof.
  destruct (get_top_length sample_env top2_request) as (out & Hout & _ & Hn).
  exists out. split; [ exact Hout | ].
  destruct Hn as [Hlen _]; [ simpl; lia | ]. exact Hlen.
Defined.

(** X8.  Rankings of the same addresses are consistent: for
    [0 <= n <= m] the answer for [N = n] is the first [n] entries of the
    answer for [N = m]. *)
Theorem get_top_prefix (env : Env) (addrs : list string) (n m : Z) :
  0 <= n <= m ->
  exists small large,
    outcome (get_top env {| N := n; addresses := addrs |}) =
    Ret {| top_addresses := small |} /\
    outcome (get_top env {| N := m; addresses := addrs |}) =
    Ret {| top_addresses := large |} /\
    small = firstn (Z.to_nat n) large.
Proof.
  intros Hnm.
  destruct (fetched_balances env addrs) as (bals & Hg & _ & _).
  do 2 eexists. split; [ | split ].
  - apply get_top_of_balances. exact Hg.
  - apply get_top_of_balances. exact Hg.
  - cbn [N addresses]. unfold slice_to.
    destruct (0 <=? n) eqn:En; [ | apply Z.leb_gt in En; lia ].
    destruct (0 <=? m) eqn:Em; [ | apply Z.leb_gt in Em; lia ].
    rewrite firstn_firstn. f_equal. lia.
Qed.

Lemma get_top_prefix_witness :
  exists small large,
    outcome (get_top sample_env top2_request) = Ret {| top_addresses := small |}
    /\ outcome (get_top sample_env top5_request) = Ret {| top_addresses := large |}
    /\ small = firstn 2 large.
Proof.
  apply (get_top_prefix sample_env ["A"; "B"; "C"] 2 5). lia.
Defined.

(** X9.  The first entry [get_top] returns holds the greatest balance: no
    fetched balance exceeds it. *)
Theorem get_top_head_is_max (env : Env) (data : AddressList) :
  exists bals out,
    Forall2 (fun a b => outcome (check_address_balance env a) = Ret b)
            (addresses data) bals /\
    outcome (get_top env data) = Ret {| top_addresses := out |} /\
    forall p, hd_error out = Some p ->
              Forall (fun b => num_leb b (snd p) = true) bals.
Proof.
  destruct (get_top_outcome env data) as (bals & Hall & Hfin & Hout).
  set (pairs := combine (addresses data) bals) in *.
  exists bals, (slice_to (N data) (py_sorted snd num_ltb true pairs)).
  split; [ exact Hall | ]. split; [ exact Hout | ].
  assert (Hpairs : Forall (fun p => finite_num (snd p)) pairs)
    by now apply combine_finite.
  destruct (ranking_facts pairs Hpairs) as (Hsorted & Hperm & _).
  destruct (slice_to_firstn (N data) (py_sorted snd num_ltb true pairs))
    as [k ->].
  intros p Hp.
  assert (Hall' : Forall (fun q => num_leb (snd q) (snd p) = true) pairs).
  { eapply Permutation_Forall; [ exact Hperm | ].
    destruct (py_sorted snd num_ltb true pairs) as [ | q ranked ] eqn:E;
      [ destruct k; discriminate | ].
    destruct k as [ | k ]; [ discriminate | ].
    cbn in Hp. inversion Hp; subst q.
    inversion Hsorted as [ | ? ? _ Hhd ]; subst.
    constructor; [ | exact Hhd ].
    apply num_leb_refl.
    assert (Hin : In p pairs)
      by (apply (Permutation_in _ Hperm); now left).
    rewrite Forall_forall in Hpairs. now apply Hpairs. }
  rewrite <- (map_snd_combine (addresses data) bals (Forall2_length Hall)).
  fold pairs. apply Forall_map. exact Hall'.
Qed.

Lemma get_top_head_is_max_witness :
  exists bals,
    Forall2 (fun a b => outcome (check_address_balance sample_env a) = Ret b)
            ["A"; "B"; "C"] bals /\
    Forall (fun b => num_leb b (PyFloat float_ten) = true) bals.
Proof.
  destruct (get_top_head_is_max sample_env top2_request)
    as (bals & out & Hall & Hout & Hmax).
  exists bals. split; [ exact Hall | ].
  vm_compute in Hout. inversion Hout; subst out.
  apply (Hmax ("C", PyFloat float_ten)). reflexivity.
Defined.

(** X10.  [get_top] returns fetched pairs only, each at most as often as it
    was fetched: its entries, together with the entries it leaves out, are a
    permutation of the (address, balance) pairs of the request. *)
Theorem get_top_entries_from_input (env : Env) (data : AddressList) :
  exists bals out rest,
    Forall2 (fun a b => outcome (check_address_balance env a) = Ret b)
            (addresses data) bals /\
    outcome (get_top env data) = Ret {| top_addresses := out |} /\
    Permutation (out ++ rest) (combine (addresses data) bals).
Proof.
  destruct (get_top_outcome env data) as (bals & Hall & _ & Hout).
  set (ranked := py_sorted snd num_ltb true (combine (addresses data) bals)) in *.
  destruct (slice_to_firstn (N data) ranked) as [k Hk].
  exists bals, (slice_to (N data) ranked), (skipn k ranked).
  split; [ exact Hall | ]. split; [ exact Hout | ].
  rewrite Hk, firstn_skipn. apply py_sorted_perm.
Qed.

(** X11.  [get_top] and [get_balance_batch] agree: when [N] is at least the
    number of addresses, the balances of the ranking are a permutation of
    the balances of the batch and its addresses a permutation of the
    request's addresses. *)
Theorem get_top_agrees_with_batch
    (env : Env) (data : AddressList) (app_state : AppState) :
  Z.of_nat (List.length (addresses data)) <= N data ->
  exists bals out,
    outcome (get_balance_batch env data app_state) =
    Ret {| balances := bals; symbol := token_symbol app_state |} /\
    outcome (get_top env data) = Ret {| top_addresses := out |} /\
    Permutation (map snd out) bals /\
    Permutation (map fst out) (addresses data).
Proof.
  intros Hn.
  destruct (fetched_balances env (addresses data)) as (bals & Hg & Hall & _).
  assert (Hlen := Forall2_length Hall).
  exists bals. eexists. split; [ | split ].
  - unfold get_balance_batch. rewrite outcome_bind, Hg. reflexivity.
  - apply get_top_of_balances. exact Hg.
  - rewrite slice_to_all by (rewrite ranked_length; [ exact Hn | now symmetry ]).
    pose proof (py_sorted_perm snd num_ltb true
                  (combine (addresses data) bals)) as Hperm.
    split.
    + rewrite <- (map_snd_combine (addresses data) bals Hlen) at 2.
      now apply Permutation_map.
    + rewrite <- (map_fst_combine (addresses data) bals Hlen) at 2.
      now apply Permutation_map.
Qed.

Lemma get_top_agrees_with_batch_witness :
  exists bals out,
    outcome (get_balance_batch sample_env top5_request {| token_symbol := "TKN" |})
    = Ret {| balances := bals; symbol := "TKN" |} /\
    outcome (get_top sample_env top5_request) = Ret {| top_addresses := out |} /\
    Permutation (map snd out) bals.
Proof.
  destruct (get_top_agrees_with_batch sample_env top5_request
              {| token_symbol := "TKN" |}) as (bals & out & H1 & H2 & H3 & _).
  - simpl. lia.
  - exists bals, out. auto.
Defined.

(** ** The transaction recency enricher *)

(** The except handler of the enricher: it returns the error string unless
    standard output raises on the line it prints. *)
Lemma date_handler_outcome (rt : Runtime) (address msg : string) :
  outcome (WithRuntime.print rt
             (fstr ["Ошибка при получении последней транзакции для ";
                    address; ": "; msg]) ;;;
           ret "Error retrieving transaction date") =
  match stdout_write rt
          (fstr ["Ошибка при получении последней транзакции для ";
                 address; ": "; msg]) with
  | Ret _ => Ret "Error retrieving transaction date"
  | Raise err => Raise err
  end.
Proof.
  rewrite outcome_bind, outcome_print_rt.
  destruct (stdout_write rt _); reflexivity.
Qed.

Lemma date_handler_calls (rt : Runtime) (address msg : string) :
  remote_calls
    (trace (WithRuntime.print rt
              (fstr ["Ошибка при получении последней транзакции для ";
                     address; ": "; msg]) ;;;
            ret "Error retrieving transaction date")) = [].
Proof.
  unfold WithRuntime.print. destruct (stdout_write rt _); reflexivity.
Qed.

(** A run of the enricher whose body raises [msg] after the events
    [log]. *)
Lemma date_body_raises (rt : Runtime) (address msg : string)
    (log : list event) (h := fun e =>
       WithRuntime.print rt
         (fstr ["Ошибка при получении последней транзакции для ";
                address; ": "; e]) ;;;
       ret "Error retrieving transaction date") :
  remote_calls (trace (try_except (log, Raise msg) h)) = remote_calls log /\
  outcome (try_except (log, Raise msg) h) =
  match stdout_write rt
          (fstr ["Ошибка при получении последней транзакции для ";
                 address; ": "; msg]) with
  | Ret _ => Ret "Error retrieving transaction date"
  | Raise err => Raise err
  end.
Proof.
  rewrite trace_try_except, outcome_try_except. cbn [outcome trace fst snd].
  subst h. cbv beta. rewrite remote_calls_app, date_handler_calls, app_nil_r.
  split; [ reflexivity | apply date_handler_outcome ].
Qed.

(** What the enricher returns is one of its two fixed strings, and what it
    raises comes from the print of its except handler. *)
Lemma get_last_transaction_date_rt_answers
    (rt : Runtime) (env : Env) (address : string) :
  (forall s,
      outcome (WithRuntime.get_last_transaction_date rt env address) = Ret s ->
      s = "No transactions found" \/ s = "Error retrieving transaction date") /\
  (forall err,
      outcome (WithRuntime.get_last_transaction_date rt env address) = Raise err ->
      exists msg,
        stdout_write rt
          (fstr ["Ошибка при получении последней транзакции для ";
                 address; ": "; msg]) = Raise err).
Proof.
  unfold WithRuntime.get_last_transaction_date. rewrite outcome_try_except.
  match goal with
  | |- context [match outcome ?m with _ => _ end] =>
      destruct (outcome m) as [s | msg] eqn:E
  end.
  - split; [ | discriminate ].
    intros s' Hs. inversion Hs; subst s'. left.
    do 4 split_bind E.
    rewrite outcome_bind in E.
    match type of E with
    | match outcome ?m with _ => _ end = _ =>
        destruct (outcome m) as [[ | ] | ?]; [ | | discriminate E ]
    end.
    + split_bind E. rewrite outcome_ret in E. now inversion E.
    + do 6 split_bind E.
      rewrite outcome_bind, outcome_lift, datetime_of_timestamp_raises in E.
      discriminate E.
  - rewrite date_handler_outcome.
    destruct (stdout_write rt _) as [u | err'] eqn:Hw; split.
    + intros s Hs. inversion Hs. now right.
    + discriminate.
    + discriminate.
    + intros err Herr. inversion Herr; subst. now exists msg.
Qed.

(** X12.  [get_last_transaction_date] never returns a date: whatever it
    returns is one of its two fixed strings, and it raises only when
    standard output raises on the line its except handler prints. *)
Theorem get_last_transaction_date_two_answers
    (rt : Runtime) (env : Env) (address : string) :
  (forall s,
      outcome (WithRuntime.get_last_transaction_date rt env address) = Ret s ->
      s = "No transactions found" \/ s = "Error retrieving transaction date") /\
  (forall err,
      outcome (WithRuntime.get_last_transaction_date rt env address) = Raise err ->
      exists msg,
        stdout_write rt
          (fstr ["Ошибка при получении последней транзакции для ";
                 address; ": "; msg]) = Raise err).
Proof. apply get_last_transaction_date_rt_answers. Qed.

Lemma get_last_transaction_date_two_answers_witness :
  outcome (WithRuntime.get_last_transaction_date utf8_runtime sample_env "A") =
  Ret "Error retrieving transaction date" /\
  exists msg,
    stdout_write utf8_runtime
      (fstr ["Ошибка при получении последней транзакции для ";
             lone_surrogate; ": "; msg]) =
    Raise "'utf-8' codec can't encode character: surrogates not allowed".
Proof.
  destruct (get_last_transaction_date_two_answers utf8_runtime sample_env "A")
    as [Hret _].
  destruct (get_last_transaction_date_two_answers utf8_runtime no_checksum_env
              lone_surrogate) as [_ Hraise].
  split.
  - destruct (Hret "Error retrieving transaction date" eq_refl) as [H | H];
      [ discriminate H | reflexivity ].
  - apply Hraise. reflexivity.
Defined.

(** X13.  A failure before the explorer has answered stops the run there:
    no request at all when the address does not normalize, only the
    block-number read when that read raises, and no block lookup when the
    explorer request raises.  In each case the answer is the error string,
    provided standard output accepts the line the except handler prints. *)
Theorem get_last_transaction_date_early_failure
    (rt : Runtime) (env : Env) (address : string) :
  (forall msg,
      to_checksum_address env address = Raise msg ->
      remote_calls (trace (WithRuntime.get_last_transaction_date rt env address))
      = [] /\
      (stdout_write rt
         (fstr ["Ошибка при получении последней транзакции для ";
                address; ": "; msg]) = Ret tt ->
       outcome (WithRuntime.get_last_transaction_date rt env address) =
       Ret "Error retrieving transaction date")) /\
  (forall checksum msg,
      to_checksum_address env address = Ret checksum ->
      eth_block_number env = Raise msg ->
      remote_calls (trace (WithRuntime.get_last_transaction_date rt env address))
      = [EthBlockNumber] /\
      (stdout_write rt
         (fstr ["Ошибка при получении последней транзакции для ";
                address; ": "; msg]) = Ret tt ->
       outcome (WithRuntime.get_last_transaction_date rt env address) =
       Ret "Error retrieving transaction date")) /\
  (forall checksum current_block msg,
      to_checksum_address env address = Ret checksum ->
      eth_block_number env = Ret current_block ->
      http_get_json env (getLogs_url env checksum current_block) = Raise msg ->
      remote_calls (trace (WithRuntime.get_last_transaction_date rt env address))
      = [EthBlockNumber; HttpGet (getLogs_url env checksum current_block)] /\
      (stdout_write rt
         (fstr ["Ошибка при получении последней транзакции для ";
                address; ": "; msg]) = Ret tt ->
       outcome (WithRuntime.get_last_transaction_date rt env address) =
       Ret "Error retrieving transaction date")).
Proof.
  unfold WithRuntime.get_last_transaction_date, call_block_number, call_http_get.
  split; [ | split ].
  - intros msg Hc. rewrite Hc. cbn [bind lift].
    destruct (date_body_raises rt address msg []) as [Hcalls Hout].
    rewrite Hcalls, Hout. split; [ reflexivity | ]. intros Hw. now rewrite Hw.
  - intros c msg Hc Hb. rewrite Hc. cbn [bind lift emit app]. rewrite Hb.
    cbn [bind lift emit app].
    destruct (date_body_raises rt address msg [EthBlockNumber])
      as [Hcalls Hout].
    rewrite Hcalls, Hout. split; [ reflexivity | ]. intros Hw. now rewrite Hw.
  - intros c cb msg Hc Hb Hh. rewrite Hc. cbn [bind lift emit app]. rewrite Hb.
    cbn [bind lift emit app]. rewrite Hh. cbn [bind lift emit app].
    destruct (date_body_raises rt address msg
                [EthBlockNumber; HttpGet (getLogs_url env c cb)])
      as [Hcalls Hout].
    rewrite Hcalls, Hout. split; [ reflexivity | ]. intros Hw. now rewrite Hw.
Qed.

Lemma get_last_transaction_date_early_failure_witness :
  outcome (WithRuntime.get_last_transaction_date utf8_runtime failing_env "bad")
  = Ret "Error retrieving transaction date" /\
  remote_calls (trace (WithRuntime.get_last_transaction_date utf8_runtime
                         failing_env "A")) = [EthBlockNumber].
Proof.
  destruct (get_last_transaction_date_early_failure utf8_runtime failing_env "bad")
    as (Hnorm & _ & _).
  destruct (get_last_transaction_date_early_failure utf8_runtime failing_env "A")
    as (_ & Hblock & _).
  split.
  - apply (Hnorm "invalid address"); reflexivity.
  - apply (Hblock "A" "connection refused"); reflexivity.
Defined.

(** X14.  When no transaction is found the enricher looks up no block: its
    only requests are the block-number read and the explorer query. *)
Theorem get_last_transaction_date_none_found_calls
    (env : Env) (address checksum : string) (current_block : Z)
    (data status : pyval) :
  to_checksum_address env address = Ret checksum ->
  eth_block_number env = Ret current_block ->
  http_get_json env (getLogs_url env checksum current_block) = Ret data ->
  py_getitem data "status" = Ret status ->
  py_ne_str status "1" = true \/ py_getitem data "result" = Ret (PList []) ->
  remote_calls (trace (get_last_transaction_date env address)) =
  [EthBlockNumber; HttpGet (getLogs_url env checksum current_block)].
Proof.
  intros Hc Hb Hh Hs Hcase.
  unfold get_last_transaction_date, call_block_number, call_http_get.
  rewrite Hc. step. rewrite Hb. step. rewrite Hh. step. rewrite Hs. step.
  destruct (py_ne_str status "1") eqn:E.
  - step. reflexivity.
  - destruct Hcase as [Hne | Hr]; [ discriminate | ].
    rewrite Hr. step. reflexivity.
Qed.

Lemma get_last_transaction_date_none_found_calls_witness :
  exists url,
    remote_calls (trace (get_last_transaction_date quiet_env "A")) =
    [EthBlockNumber; HttpGet url].
Proof.
  eexists.
  apply (get_last_transaction_date_none_found_calls quiet_env "A" "A" 50000000
           empty_logs (PStr "0")); try reflexivity.
  left. reflexivity.
Defined.

(** X15.  A response without a status (not an object, or an object without
    that key) gives the error string, and so does a response with status
    ["1"] and no result; neither leads to a block lookup. *)
Theorem get_last_transaction_date_malformed_response
    (env : Env) (address checksum : string) (current_block : Z) (data : pyval) :
  to_checksum_address env address = Ret checksum ->
  eth_block_number env = Ret current_block ->
  http_get_json env (getLogs_url env checksum current_block) = Ret data ->
  (exists msg, py_getitem data "status" = Raise msg) \/
  (py_getitem data "status" = Ret (PStr "1") /\
   exists msg, py_getitem data "result" = Raise msg) ->
  outcome (get_last_transaction_date env address) =
  Ret "Error retrieving transaction date" /\
  remote_calls (trace (get_last_transaction_date env address)) =
  [EthBlockNumber; HttpGet (getLogs_url env checksum current_block)].
Proof.
  intros Hc Hb Hh Hcase.
  unfold get_last_transaction_date, call_block_number, call_http_get.
  rewrite Hc. step. rewrite Hb. step. rewrite Hh. step.
  destruct Hcase as [[msg Hs] | [Hs [msg Hr]]]; rewrite Hs; step.
  - split; reflexivity.
  - change (py_ne_str (PStr "1") "1") with false. cbv iota.
    rewrite Hr. step. split; reflexivity.
Qed.

Lemma get_last_transaction_date_malformed_response_witness :
  outcome (get_last_transaction_date
             {| to_checksum_address := to_checksum_address sample_env;
                contract_symbol := contract_symbol sample_env;
                contract_name := contract_name sample_env;
                contract_totalSupply := contract_totalSupply sample_env;
                contract_decimals := contract_decimals sample_env;
                token_getBalance := token_getBalance sample_env;
                eth_block_number := Ret 50000000;
                eth_get_block := eth_get_block sample_env;
                http_get_json := fun _ => Ret (PList []);
                API_POLYGONSCAN := "KEY" |} "A") =
  Ret "Error retrieving transaction date".
Proof.
  eapply get_last_transaction_date_malformed_response; try reflexivity.
  left. eexists. reflexivity.
Defined.

(** The first key that raises makes [max] raise. *)
Lemma max_loop_raises {A} (key : A -> exc (Z * Z)) (rest : list A) :
  forall maxitem maxval,
    Exists (fun x => exists msg, key x = Raise msg) rest ->
    exists msg, max_loop key pair_gtb rest maxitem maxval = Raise msg.
Proof.
  induction rest as [ | item rest IH ]; intros m mv Hex.
  - inversion Hex.
  - cbn [max_loop]. destruct (key item) as [val | msg] eqn:E; cbn [exc_bind].
    + assert (Hrest : Exists (fun x => exists msg, key x = Raise msg) rest).
      { inversion Hex as [ ? ? [msg H] | ]; subst; [ congruence | assumption ]. }
      destruct (pair_gtb val mv); apply IH; exact Hrest.
    + now exists msg.
Qed.

Lemma py_max_raises {A} (key : A -> exc (Z * Z)) (items : list A) :
  Exists (fun x => exists msg, key x = Raise msg) items ->
  exists msg, py_max key pair_gtb items = Raise msg.
Proof.
  intros Hex. destruct items as [ | item rest ]; [ inversion Hex | ].
  cbn [py_max]. destruct (key item) as [val | msg] eqn:E; cbn [exc_bind].
  - apply max_loop_raises.
    inversion Hex as [ ? ? [msg H] | ]; subst; [ congruence | assumption ].
  - now exists msg.
Qed.

(** X16.  With status ["1"] and a non-empty result, a result that cannot
    be iterated, or an item of it whose block number or transaction index is
    missing or is not a hexadecimal number for the interpreter, leads to no
    block lookup; the answer is the error string, unless standard output
    raises on the line the except handler prints, in which case that
    exception is raised. *)
Theorem get_last_transaction_date_malformed_events
    (rt : Runtime) (env : Env) (address checksum : string) (current_block : Z)
    (data result : pyval) :
  to_checksum_address env address = Ret checksum ->
  eth_block_number env = Ret current_block ->
  http_get_json env (getLogs_url env checksum current_block) = Ret data ->
  py_getitem data "status" = Ret (PStr "1") ->
  py_getitem data "result" = Ret result ->
  truthy result = true ->
  (exists msg, py_iter result = Raise msg) \/
  (exists items,
      py_iter result = Ret items /\
      Exists (fun e => exists msg, WithRuntime.event_key rt e = Raise msg)
             items) ->
  remote_calls (trace (WithRuntime.get_last_transaction_date rt env address)) =
  [EthBlockNumber; HttpGet (getLogs_url env checksum current_block)] /\
  exists msg,
    outcome (WithRuntime.get_last_transaction_date rt env address) =
    match stdout_write rt
            (fstr ["Ошибка при получении последней транзакции для ";
                   address; ": "; msg]) with
    | Ret _ => Ret "Error retrieving transaction date"
    | Raise err => Raise err
    end.
Proof.
  intros Hc Hb Hh Hs Hr Ht Hcase.
  unfold WithRuntime.get_last_transaction_date, call_block_number, call_http_get.
  rewrite Hc. cbn [bind lift emit app ret]. rewrite Hb.
  cbn [bind lift emit app ret]. rewrite Hh. cbn [bind lift emit app ret].
  rewrite Hs. cbn [bind lift emit app ret].
  change (py_ne_str (PStr "1") "1") with false. cbv iota.
  rewrite Hr. cbn [bind lift emit app ret]. rewrite Ht.
  cbn [negb bind lift emit app ret].
  destruct Hcase as [[msg Hi] | (items & Hi & Hex)]; rewrite Hi;
    cbn [bind lift emit app ret].
  - destruct (date_body_raises rt address msg
                [EthBlockNumber; HttpGet (getLogs_url env checksum current_block)])
      as [Hcalls Hout].
    rewrite Hcalls, Hout. split; [ reflexivity | now exists msg ].
  - destruct (py_max_raises (WithRuntime.event_key rt) items Hex) as [msg Hmax].
    rewrite Hmax. cbn [bind lift emit app ret].
    destruct (date_body_raises rt address msg
                [EthBlockNumber; HttpGet (getLogs_url env checksum current_block)])
      as [Hcalls Hout].
    rewrite Hcalls, Hout. split; [ reflexivity | now exists msg ].
Qed.

Lemma get_last_transaction_date_malformed_events_witness :
  outcome (WithRuntime.get_last_transaction_date plain_runtime malformed_env "A")
  = Ret "Error retrieving transaction date" /\
  exists url,
    remote_calls (trace (WithRuntime.get_last_transaction_date plain_runtime
                           malformed_env "A")) = [EthBlockNumber; HttpGet url].
Proof.
  destruct (get_last_transaction_date_malformed_events plain_runtime malformed_env
              "A" "A" 50000000 malformed_logs
              (PList [sample_event "0x10" "0x1"; sample_event "sixteen" "0x0"]))
    as [Hcalls [msg Hout]]; try reflexivity.
  - right. eexists. split; [ reflexivity | ].
    apply Exists_cons_tl. apply Exists_cons_hd. eexists. reflexivity.
  - split; [ | eexists; exact Hcalls ].
    rewrite Hout. reflexivity.
Defined.

(** An event written in full-width digits is parsed as the interpreter
    parses it, and its block is looked up. *)
Lemma fullwidth_event_is_looked_up :
  In (EthGetBlock 16)
     (trace (WithRuntime.get_last_transaction_date utf8_runtime fullwidth_env "A")).
Proof. vm_compute. tauto. Qed.

(** ** The enriched ranking *)





(** ** The two forms of the enricher *)

Lemma bind_ext {A B} (m : M A) (k k' : A -> M B) :
  (forall a, k a = k' a) -> bind m k = bind m k'.
Proof.
  intros H. destruct m as [l [a | e]]; simpl; [ now rewrite H | reflexivity ].
Qed.

Lemma try_except_ext {A} (m m' : M A) (h h' : string -> M A) :
  m = m' -> (forall e, h e = h' e) -> try_except m h = try_except m' h'.
Proof.
  intros -> H. destruct m' as [l [a | e]]; simpl; [ reflexivity | now rewrite H ].
Qed.

Lemma py_int16_plain (v : pyval) :
  WithRuntime.py_int16 plain_runtime v = py_int16 v.
Proof.
  destruct v; try reflexivity. simpl. now destruct (is_ascii s).
Qed.

Lemma event_key_plain (e : pyval) :
  WithRuntime.event_key plain_runtime e = event_key e.
Proof.
  unfold WithRuntime.event_key, event_key.
  destruct (py_getitem e "blockNumber") as [b | ]; [ | reflexivity ].
  cbn [exc_bind]. rewrite py_int16_plain.
  destruct (py_int16 b) as [bn | ]; [ | reflexivity ].
  cbn [exc_bind].
  destruct (py_getitem e "transactionIndex") as [t | ]; [ | reflexivity ].
  cbn [exc_bind]. now rewrite py_int16_plain.
Qed.

Lemma max_loop_ext {A K} (key key' : A -> exc K) (gtb : K -> K -> bool)
    (rest : list A) :
  (forall x, key x = key' x) ->
  forall maxitem maxval,
    max_loop key gtb rest maxitem maxval = max_loop key' gtb rest maxitem maxval.
Proof.
  intros H. induction rest as [ | item rest IH ]; intros m mv; [ reflexivity | ].
  cbn [max_loop]. rewrite H. destruct (key' item) as [val | ]; [ | reflexivity ].
  cbn [exc_bind]. now rewrite !IH.
Qed.

Lemma py_max_ext {A K} (key key' : A -> exc K) (gtb : K -> K -> bool)
    (items : list A) :
  (forall x, key x = key' x) -> py_max key gtb items = py_max key' gtb items.
Proof.
  intros H. destruct items as [ | item rest ]; [ reflexivity | ].
  cbn [py_max]. rewrite H. destruct (key' item); [ | reflexivity ].
  cbn [exc_bind]. now apply max_loop_ext.
Qed.

(** With a standard output that accepts every line and the ASCII parse
    alone, the enricher is the one of the first part. *)
Lemma get_last_transaction_date_plain (env : Env) (address : string) :
  WithRuntime.get_last_transaction_date plain_runtime env address =
  get_last_transaction_date env address.
Proof.
  unfold WithRuntime.get_last_transaction_date, get_last_transaction_date.
  apply try_except_ext; [ | reflexivity ].
  do 5 (apply bind_ext; intros ?).
  match goal with |- (if ?b then _ else _) = _ => destruct b end;
    [ reflexivity | ].
  do 2 (apply bind_ext; intros ?).
  rewrite (py_max_ext _ _ pair_gtb _ event_key_plain).
  do 2 (apply bind_ext; intros ?).
  rewrite py_int16_plain.
  reflexivity.
Qed.

(** ** Start-up *)

(** X18.  Start-up catches nothing: when the symbol read of the token
    contract raises, [lifespan] raises the same exception, after that single
    read and without printing. *)
Theorem lifespan_failure_propagates (env : Env) (address msg : string) :
  token_address env = Ret address ->
  contract_symbol env address = Raise msg ->
  outcome (lifespan env) = Raise msg /\
  trace (lifespan env) = [CallSymbol address].
Proof.
  intros Ha Hs. unfold lifespan, call_symbol. rewrite Ha. step. rewrite Hs.
  split; reflexivity.
Qed.

Lemma lifespan_failure_propagates_witness :
  outcome (lifespan
             {| to_checksum_address := to_checksum_address sample_env;
                contract_symbol := fun _ => Raise "connection refused";
                contract_name := contract_name sample_env;
                contract_totalSupply := contract_totalSupply sample_env;
                contract_decimals := contract_decimals sample_env;
                token_getBalance := token_getBalance sample_env;
                eth_block_number := eth_block_number sample_env;
                eth_get_block := eth_get_block sample_env;
                http_get_json := http_get_json sample_env;
                API_POLYGONSCAN := "KEY" |}) = Raise "connection refused".
Proof.
  eapply lifespan_failure_propagates; reflexivity.
Defined.

(** X19.  The symbol a batch response carries is the one read at start-up:
    after a successful [lifespan], [get_balance_batch] returns that symbol
    for every request, without reading the symbol again. *)
Theorem lifespan_symbol_is_served
    (env : Env) (data : AddressList) (address sym : string) :
  token_address env = Ret address ->
  contract_symbol env address = Ret sym ->
  outcome (lifespan env) = Ret {| token_symbol := sym |} /\
  (exists bals,
      outcome (app_state <- lifespan env ;;
               get_balance_batch env data app_state) =
      Ret {| balances := bals; symbol := sym |}) /\
  forall app_state c,
    ~ In (CallSymbol c) (trace (get_balance_batch env data app_state)).
Proof.
  intros Ha Hs.
  assert (Hlife : outcome (lifespan env) = Ret {| token_symbol := sym |}).
  { unfold lifespan, call_symbol. rewrite Ha. step. rewrite Hs. reflexivity. }
  split; [ exact Hlife | ]. split.
  - destruct (get_balance_batch_outcome env data {| token_symbol := sym |})
      as (bals & _ & Hout).
    exists bals. rewrite outcome_bind, Hlife. exact Hout.
  - intros app_state c Hin.
    destruct (fetched_balances env (addresses data)) as (bals & Hg & _ & _).
    unfold get_balance_batch in Hin. rewrite trace_bind, Hg in Hin.
    cbn [ret trace fst] in Hin. rewrite app_nil_r in Hin.
    rewrite (gather_map_trace _ _ (check_address_balance_returns env)) in Hin.
    apply in_flat_map in Hin. destruct Hin as (a & _ & Hin).
    rewrite check_address_balance_trace in Hin.
    destruct (to_checksum_address env a) as [c' | e];
      [ | destruct Hin as [H | []]; discriminate ].
    destruct Hin as [H | Hin]; [ discriminate | ].
    destruct (token_getBalance env c') as [raw | e];
      [ | destruct Hin as [H | []]; discriminate ].
    destruct (truediv raw (10 ^ 18));
      [ destruct Hin | destruct Hin as [H | []]; discriminate ].
Qed.

Lemma lifespan_symbol_is_served_witness :
  exists bals,
    outcome (app_state <- lifespan sample_env ;;
             get_balance_batch sample_env top2_request app_state) =
    Ret {| balances := bals; symbol := "TKN" |}.
Proof.
  destruct (lifespan_symbol_is_served sample_env top2_request
              "0x1a9b54A3075119f1546C52cA0940551A6ce5d2D0" "TKN")
    as (_ & Hserved & _); try reflexivity.
  exact Hserved.
Defined.
